(** * Relative volatility of a token against a reference basket

    A shallow embedding of [calculate_relative_volatility] and of the helpers
    nested in it ([extract_prices], [get_historical_price_data]) from
    [perform.py], method [test_complete_method].

    Python floats are IEEE 754 binary64 numbers and are modelled by Rocq's
    primitive floats, so [/], [-], [*] and [>] below are the operations the
    interpreter runs.  Exceptions are modelled by an error monad with
    [try ... except] combinators; the calls to the historical-data lookup are
    recorded in a call log, so that "this token is never fetched" is a
    statement about the model. *)

From Stdlib Require Import ZArith Lia List String.
From Stdlib Require Import Floats.
From stdpp Require Import base option list strings gmap.
Import ListNotations.

Local Open Scope Z_scope.
Local Open Scope string_scope.
Local Open Scope list_scope.

(** ** Exceptions *)

(** The exception classes that can occur; every one of them derives from
    Python's [Exception].  [OtherError] stands for any further class that
    derives from [Exception] directly, such as [sqlite3.OperationalError]. *)
Inductive exn : Type :=
| ValueError
| TypeError
| OverflowError
| ZeroDivisionError
| IndexError
| StatisticsError
| OtherError (name : string).

#[global] Instance exn_eq_dec : EqDecision exn.
Proof. solve_decision. Defined.

(** [isinstance e cls]: the subclass test of an [except cls] clause.
    [statistics.StatisticsError] derives from [ValueError]. *)
Definition isinstance (e cls : exn) : bool :=
  match cls, e with
  | ValueError, StatisticsError => true
  | _, _ => bool_decide (e = cls)
  end.

(** An [except (C1, ..., Cn)] clause. *)
Definition handles (classes : list exn) (e : exn) : bool :=
  existsb (isinstance e) classes.
Arguments handles : simpl never.

(** The outcome of evaluating Python code: a value or a raised exception. *)
Inductive pyresult (A : Type) : Type :=
| Ok (a : A)
| Raise (e : exn).
Arguments Ok {A} a.
Arguments Raise {A} e.

#[global] Instance pyresult_ret : MRet pyresult := fun A a => Ok a.
#[global] Instance pyresult_bind : MBind pyresult := fun A B f m =>
  match m with
  | Ok a => f a
  | Raise e => Raise e
  end.

(** [try: body except classes: handler] *)
Definition try_except {A} (body : pyresult A) (classes : list exn)
    (handler : pyresult A) : pyresult A :=
  match body with
  | Ok a => Ok a
  | Raise e => if handles classes e then handler else Raise e
  end.

(** [try: body except Exception: handler] *)
Definition try_except_Exception {A} (body : pyresult A)
    (handler : pyresult A) : pyresult A :=
  match body with
  | Ok a => Ok a
  | Raise _ => handler
  end.

(** A [for] loop that threads an accumulator and stops at the first exception
    that escapes its body. *)
Fixpoint for_each {A S} (body : S -> A -> pyresult S) (xs : list A) (s : S)
    : pyresult S :=
  match xs with
  | [] => Ok s
  | x :: xs' => s' ← body s x; for_each body xs' s'
  end.

(** ** Python values *)

#[local] Set Warnings "-register-all".

(** The values that reach the code as historical data and as price entries.
    A [dict] is an association list keyed by strings (first binding wins);
    [PObj] is an object without [__iter__] and without [__float__]. *)
Inductive pyval : Type :=
| PNone
| PBool (b : bool)
| PInt (z : Z)
| PFloat (f : float)
| PStr (s : string)
| PList (items : list pyval)
| PTuple (items : list pyval)
| PDict (bindings : list (string * pyval))
| PObj (id : nat).

Definition is_None (v : pyval) : bool :=
  match v with PNone => true | _ => false end.

(** [key in d] and [d[key]] for a [dict]. *)
Fixpoint dict_get (d : list (string * pyval)) (key : string) : option pyval :=
  match d with
  | [] => None
  | (k, v) :: d' => if String.eqb k key then Some v else dict_get d' key
  end.

(** ** The runtime the script relies on

    [float(str)], [statistics.stdev] and [statistics.mean] belong to the
    Python runtime and its standard library, not to this repository; the model
    takes them as an interface. *)
Class Runtime : Type := {
  float_of_str : string -> option float;
  stdev : list float -> pyresult float;
  mean : list float -> pyresult float
}.

(** [float(n)] for an [int]: the nearest binary64 number, ties to even;
    [OverflowError] when that is out of range. *)
Definition float_of_int (z : Z) : pyresult float :=
  let f := SF2Prim (binary_normalize prec emax z 0 false) in
  if is_infinity f then Raise OverflowError else Ok f.

(** The builtin [float(v)]. *)
Definition py_float `{Runtime} (v : pyval) : pyresult float :=
  match v with
  | PFloat f => Ok f
  | PInt z => float_of_int z
  | PBool b => Ok (if b then 1%float else 0%float)
  | PStr s =>
      match float_of_str s with
      | Some f => Ok f
      | None => Raise ValueError
      end
  | _ => Raise TypeError
  end.

(** [x / y] on floats raises [ZeroDivisionError] for a zero divisor (of either
    sign) and never overflows into an exception. *)
Definition py_div (x y : float) : pyresult float :=
  if (y =? 0)%float then Raise ZeroDivisionError else Ok (x / y)%float.

(** ** [extract_prices] *)

Section Extraction.
Context `{Runtime}.

(** The body of the inner [try] of the loop up to the assignment of [price]:
    [None] when no branch assigns it. *)
Definition entry_price (entry : pyval) : pyresult (option float) :=
  match entry with
  | PDict d =>
      match dict_get d "price" with
      | Some v =>
          if is_None v then Ok None
          else try_except (p ← py_float v; Ok (Some p))
                 [ValueError; TypeError] (Ok None)
      | None => Ok None
      end
  | PList (first :: _) | PTuple (first :: _) =>
      if is_None first then Ok None
      else try_except (p ← py_float first; Ok (Some p))
             [ValueError; TypeError] (Ok None)
  | PInt _ | PFloat _ | PBool _ => p ← py_float entry; Ok (Some p)
  | _ => Ok None
  end.

(** One iteration of [for entry in history_data]. *)
Definition extract_step (prices : list float) (entry : pyval)
    : pyresult (list float) :=
  if is_None entry then Ok prices
  else
    try_except_Exception
      (price ← entry_price entry;
       match price with
       | Some p => if (0 <? p)%float then Ok (prices ++ [p]) else Ok prices
       | None => Ok prices
       end)
      (Ok prices).

(** What [for entry in history_data] iterates over: [None] when the value
    is rejected by the guards before the loop. *)
Definition iter_entries (history_data : pyval) : option (list pyval) :=
  match history_data with
  | PList es | PTuple es => Some es
  | PDict d => Some (map (fun kv => PStr (fst kv)) d)
  | _ => None
  end.

Definition extract_prices (history_data : pyval) : pyresult (list float) :=
  match iter_entries history_data with
  | None => Ok []
  | Some es => for_each extract_step es []
  end.

End Extraction.

(** ** The percentage-change loop *)

(** [l[i]]: [IndexError] out of range. *)
Definition index (l : list float) (i : nat) : pyresult float :=
  match l !! i with
  | Some x => Ok x
  | None => Raise IndexError
  end.

(** [((cur / prev) - 1) * 100] *)
Definition pct_change (cur prev : float) : pyresult float :=
  q ← py_div cur prev; Ok ((q - 1) * 100)%float.

(** One iteration of [for i in range(1, len(prices))]: the guard on the prior
    price, then the division under [except (ZeroDivisionError, OverflowError)]. *)
Definition change_step (prices changes : list float) (i : nat)
    : pyresult (list float) :=
  prev ← index prices (i - 1);
  if (0 <? prev)%float then
    try_except
      (cur ← index prices i;
       c ← pct_change cur prev;
       Ok (changes ++ [c]))
      [ZeroDivisionError; OverflowError]
      (Ok changes)
  else Ok changes.

Definition price_changes (prices : list float) : pyresult (list float) :=
  for_each (change_step prices) (seq 1 (length prices - 1)) [].

(** ** The loop with its divisions observed *)

(** One evaluation of [/]: the dividend and the divisor. *)
Definition division : Type := float * float.

(** A computation that may divide: what it returns and the divisions it
    evaluated, in order.  A division that raises stays in the log, also when
    its exception is handled. *)
Record observed (A : Type) : Type :=
  Observed { returned : pyresult A; divisions : list division }.
Arguments Observed {A} returned divisions.
Arguments returned {A} _.
Arguments divisions {A} _.

#[global] Instance observed_ret : MRet observed := fun A a => Observed (Ok a) [].
#[global] Instance observed_bind : MBind observed := fun A B f m =>
  match returned m with
  | Ok a => Observed (returned (f a)) (divisions m ++ divisions (f a))
  | Raise e => Observed (Raise e) (divisions m)
  end.

(** Code that does not divide. *)
Definition quiet {A} (r : pyresult A) : observed A := Observed r [].

(** [x / y], entered in the log whether it raises or not. *)
Definition divide (x y : float) : observed float :=
  Observed (py_div x y) [(x, y)].

(** [try: body except classes: handler] around code that may divide. *)
Definition observed_try_except {A} (body : observed A) (classes : list exn)
    (handler : observed A) : observed A :=
  match returned body with
  | Ok _ => body
  | Raise e =>
      if handles classes e
      then Observed (returned handler) (divisions body ++ divisions handler)
      else body
  end.

Fixpoint observed_for_each {A S} (body : S -> A -> observed S) (xs : list A)
    (s : S) : observed S :=
  match xs with
  | [] => mret s
  | x :: xs' => s' ← body s x; observed_for_each body xs' s'
  end.

(** [((cur / prev) - 1) * 100] *)
Definition pct_change_observed (cur prev : float) : observed float :=
  q ← divide cur prev; mret ((q - 1) * 100)%float.

(** One iteration of [for i in range(1, len(prices))]. *)
Definition change_step_observed (prices changes : list float) (i : nat)
    : observed (list float) :=
  prev ← quiet (index prices (i - 1));
  if (0 <? prev)%float then
    observed_try_except
      (cur ← quiet (index prices i);
       c ← pct_change_observed cur prev;
       mret (changes ++ [c]))
      [ZeroDivisionError; OverflowError]
      (mret changes)
  else mret changes.

Definition price_changes_observed (prices : list float)
    : observed (list float) :=
  observed_for_each (change_step_observed prices)
    (seq 1 (length prices - 1)) [].

(** ** The historical-data lookup *)

(** [query token hours] stands for the [SELECT price FROM price_history ...
    ORDER BY timestamp ASC LIMIT 50] that the lookup runs through [sqlite3]:
    the price column of the rows it fetches, or the exception the database
    layer raises. *)
Definition get_historical_price_data
    (query : string -> Z -> pyresult (list pyval))
    (token_symbol : string) (hours_back : Z) (tf : string) : pyresult pyval :=
  try_except_Exception
    (results ← query token_symbol hours_back;
     match results with
     | [] => Ok PNone
     | _ => Ok (PList (map (fun price => PDict [("price", price)]) results))
     end)
    (Ok PNone).

(** ** Code that calls the lookup *)

(** One call of the lookup: token, hours, timeframe. *)
Definition call : Type := string * Z * string.

(** A computation that may call the lookup: its outcome and the calls it made,
    in order.  Calls made before an exception stay in the log. *)
Record io (A : Type) : Type := IO { outcome : pyresult A; calls : list call }.
Arguments IO {A} outcome calls.
Arguments outcome {A} _.
Arguments calls {A} _.

#[global] Instance io_ret : MRet io := fun A a => IO (Ok a) [].
#[global] Instance io_bind : MBind io := fun A B f m =>
  match outcome m with
  | Ok a => IO (outcome (f a)) (calls m ++ calls (f a))
  | Raise e => IO (Raise e) (calls m)
  end.

(** A computation that makes no call. *)
Definition lift {A} (r : pyresult A) : io A := IO r [].

(** [try: body except Exception: handler] around code that calls the lookup. *)
Definition io_try_except_Exception {A} (body handler : io A) : io A :=
  match outcome body with
  | Ok _ => body
  | Raise _ => IO (outcome handler) (calls body ++ calls handler)
  end.

Fixpoint io_for_each {A S} (body : S -> A -> io S) (xs : list A) (s : S)
    : io S :=
  match xs with
  | [] => mret s
  | x :: xs' => s' ← body s x; io_for_each body xs' s'
  end.

(** ** [calculate_relative_volatility] *)

(** The [if timeframe == "1h" ... elif ... else] at the top of the body. *)
Definition timeframe_hours (timeframe : string) : Z :=
  if String.eqb timeframe "1h" then 24
  else if String.eqb timeframe "24h" then 7 * 24
  else 30 * 24.

Section Calculator.
Context `{Runtime}.

(** The lookup as the body sees it: a function that returns the historical
    data or raises. *)
Variable price_history_provider : string -> Z -> string -> pyresult pyval.

Definition fetch (token : string) (hours : Z) (tf : string) : io pyval :=
  IO (price_history_provider token hours tf) [(token, hours, tf)].

(** One iteration of [for ref_token in reference_tokens]. *)
Definition reference_step (market_data : gmap string pyval) (hours : Z)
    (timeframe : string) (market_volatilities : list float)
    (ref_token : string) : io (list float) :=
  match market_data !! ref_token with
  | None => mret market_volatilities
  | Some _ =>
      io_try_except_Exception
        (ref_history ← fetch ref_token hours timeframe;
         ref_prices ← lift (extract_prices ref_history);
         if (length ref_prices <? 5)%nat then mret market_volatilities
         else
           ref_changes ← lift (price_changes ref_prices);
           if (2 <=? length ref_changes)%nat then
             lift (try_except
                     (ref_volatility ← stdev ref_changes;
                      Ok (market_volatilities ++ [ref_volatility]))
                     [StatisticsError]
                     (Ok market_volatilities))
           else mret market_volatilities)
        (mret market_volatilities)
  end.

(** The reference loop: the list [market_volatilities] it leaves. *)
Definition market_volatilities_of (reference_tokens : list string)
    (market_data : gmap string pyval) (hours : Z) (timeframe : string)
    : io (list float) :=
  io_for_each (reference_step market_data hours timeframe) reference_tokens [].

(** The body of the outer [try]. *)
Definition relative_volatility_body (token : string)
    (reference_tokens : list string) (market_data : gmap string pyval)
    (timeframe : string) : io (option float) :=
  let hours := timeframe_hours timeframe in
  token_history ← fetch token hours timeframe;
  token_prices ← lift (extract_prices token_history);
  if (length token_prices <? 5)%nat then mret None
  else
    token_changes ← lift (price_changes token_prices);
    if (length token_changes <? 2)%nat then mret None
    else
      tv ← lift (try_except (v ← stdev token_changes; Ok (Some v))
                   [StatisticsError] (Ok None));
      match tv with
      | None => mret None
      | Some token_volatility =>
          market_volatilities ←
            market_volatilities_of reference_tokens market_data hours timeframe;
          match market_volatilities with
          | [] => mret None
          | _ =>
              market_avg_volatility ← lift (mean market_volatilities);
              if (0 <? market_avg_volatility)%float then
                relative_volatility ←
                  lift (py_div token_volatility market_avg_volatility);
                mret (Some relative_volatility)
              else mret None
          end
      end.

(** The function with the lookup as a parameter; [None] is the no-result. *)
Definition calculate_relative_volatility_with (token : string)
    (reference_tokens : list string) (market_data : gmap string pyval)
    (timeframe : string) : io (option float) :=
  io_try_except_Exception
    (relative_volatility_body token reference_tokens market_data timeframe)
    (mret None).

End Calculator.

(** The function as the script defines it, closed over its own lookup. *)
Definition calculate_relative_volatility `{Runtime}
    (query : string -> Z -> pyresult (list pyval)) (token : string)
    (reference_tokens : list string) (market_data : gmap string pyval)
    (timeframe : string) : io (option float) :=
  calculate_relative_volatility_with (get_historical_price_data query)
    token reference_tokens market_data timeframe.

(** ** A runnable instance of the runtime

    The instance serves to run the model on concrete inputs; the theorems
    below hold for every instance.  Mean and deviation are computed directly
    in binary64 arithmetic (sum, divide, square root), which agrees with
    [statistics] on the inputs of the examples up to the last bits of a
    non-zero deviation.  [float(str)] reads strings of decimal digits and
    rejects every other string; the examples pass no other numeric string. *)

Definition float_of_nat (n : nat) : float :=
  SF2Prim (binary_normalize prec emax (Z.of_nat n) 0 false).

Definition fsum (xs : list float) : float :=
  fold_left PrimFloat.add xs 0%float.

Definition direct_mean (xs : list float) : pyresult float :=
  match xs with
  | [] => Raise StatisticsError
  | _ => Ok (fsum xs / float_of_nat (length xs))%float
  end.

Definition direct_stdev (xs : list float) : pyresult float :=
  if (length xs <? 2)%nat then Raise StatisticsError
  else
    let m := (fsum xs / float_of_nat (length xs))%float in
    let ss := fsum (map (fun x => ((x - m) * (x - m))%float) xs) in
    Ok (PrimFloat.sqrt (ss / float_of_nat (length xs - 1)))%float.

Definition digit_value (c : Ascii.ascii) : option Z :=
  let n := Z.of_N (Ascii.N_of_ascii c) in
  if ((48 <=? n) && (n <=? 57))%Z then Some (n - 48) else None.

Fixpoint digits_value (s : string) (acc : Z) : option Z :=
  match s with
  | EmptyString => Some acc
  | String c s' =>
      match digit_value c with
      | Some d => digits_value s' (10 * acc + d)
      | None => None
      end
  end.

Definition digits_to_float (s : string) : option float :=
  match s with
  | EmptyString => None
  | _ =>
      match digits_value s 0 with
      | Some z => Some (SF2Prim (binary_normalize prec emax z 0 false))
      | None => None
      end
  end.

#[global] Instance direct_runtime : Runtime := {
  float_of_str := digits_to_float;
  stdev := direct_stdev;
  mean := direct_mean
}.

(** ** Notions used in the statements *)

Section Notions.
Context `{Runtime}.

(** What one entry adds to [prices]: one iteration run on the empty list. *)
Definition kept_price (entry : pyval) : list float :=
  match extract_step [] entry with
  | Ok l => l
  | Raise _ => []
  end.

(** [int], [float] and [bool] values: the plain numbers. *)
Definition is_number (v : pyval) : bool :=
  match v with
  | PInt _ | PFloat _ | PBool _ => true
  | _ => false
  end.

(** [carries v entry]: the entry has one of the three shapes and [v] is the
    value its price is read from. *)
Inductive carries (v : pyval) : pyval -> Prop :=
| carries_plain : is_number v = true -> carries v v
| carries_record d : dict_get d "price" = Some v -> carries v (PDict d)
| carries_list rest : carries v (PList (v :: rest))
| carries_tuple rest : carries v (PTuple (v :: rest)).

End Notions.

(** The changes of consecutive prices whose prior price is positive. *)
Fixpoint changes_of (prices : list float) : list float :=
  match prices with
  | prev :: (cur :: _) as rest =>
      (if (0 <? prev)%float then [((cur / prev - 1) * 100)%float] else [])
      ++ changes_of rest
  | _ => []
  end.

(** The divisions of consecutive prices whose prior price is positive. *)
Fixpoint divisions_of (prices : list float) : list division :=
  match prices with
  | prev :: (cur :: _) as rest =>
      (if (0 <? prev)%float then [(cur, prev)] else []) ++ divisions_of rest
  | _ => []
  end.

(** [ref_token in market_data] *)
Definition member (market_data : gmap string pyval) (ref_token : string) : bool :=
  bool_decide (is_Some (market_data !! ref_token)).

(** What one reference token adds to [market_volatilities]: one iteration run
    on the empty list. *)
Definition reference_contribution `{Runtime}
    (provider : string -> Z -> string -> pyresult pyval)
    (market_data : gmap string pyval) (hours : Z) (timeframe : string)
    (ref_token : string) : list float :=
  match outcome (reference_step provider market_data hours timeframe [] ref_token) with
  | Ok l => l
  | Raise _ => []
  end.

(** The token named by a call of the lookup. *)
Definition call_token (c : call) : string := c.1.1.
Definition call_hours (c : call) : Z := c.1.2.

(** The volatility of the subject token when every check before the
    reference loop passes. *)
Definition subject_volatility `{Runtime}
    (provider : string -> Z -> string -> pyresult pyval)
    (token : string) (timeframe : string) : option float :=
  match provider token (timeframe_hours timeframe) timeframe with
  | Ok token_history =>
      match extract_prices token_history with
      | Ok token_prices =>
          if (length token_prices <? 5)%nat then None
          else
            match price_changes token_prices with
            | Ok token_changes =>
                if (length token_changes <? 2)%nat then None
                else
                  match stdev token_changes with
                  | Ok v => Some v
                  | Raise _ => None
                  end
            | Raise _ => None
            end
      | Raise _ => None
      end
  | Raise _ => None
  end.

(** The market average when it exists and is greater than zero. *)
Definition baseline `{Runtime} (market_volatilities : list float) : option float :=
  match market_volatilities with
  | [] => None
  | _ =>
      match mean market_volatilities with
      | Ok m => if (0 <? m)%float then Some m else None
      | Raise _ => None
      end
  end.

(** ** Inputs for the examples *)

(** The test series of the script ([test_volatility_calculation]). *)
Definition example_series : list float :=
  [100; 102; 98; 105; 103; 99; 107; 104]%float.

(** A non-constant series whose percentage changes are all equal. *)
Definition doubling_series : list float := [1; 2; 4; 8; 16]%float.

Definition constant_series : list float := replicate 8 100%float.

Definition example_market : gmap string pyval :=
  {[ "BTC" := PDict [("current_price", PFloat 100)];
     "ETH" := PDict [("current_price", PFloat 100)] ]}.

(** A database in which every token has the same rows. *)
Definition same_rows (prices : list float) : string -> Z -> pyresult (list pyval) :=
  fun _ _ => Ok (map PFloat prices).

(** A database in which the subject [SOL] has its own rows. *)
Definition subject_rows (subject others : list float)
    : string -> Z -> pyresult (list pyval) :=
  fun token _ =>
    if String.eqb token "SOL" then Ok (map PFloat subject)
    else Ok (map PFloat others).

(** A database that cannot be read. *)
Definition broken_database : string -> Z -> pyresult (list pyval) :=
  fun _ _ => Raise (OtherError "sqlite3.OperationalError").

(** A lookup that raises instead of returning. *)
Definition raising_provider : string -> Z -> string -> pyresult pyval :=
  fun _ _ _ => Raise (OtherError "sqlite3.OperationalError").

(** The history that the script's lookup builds from rows. *)
Definition history_of (prices : list float) : pyval :=
  PList (map (fun p => PDict [("price", PFloat p)]) prices).

Definition example_changes : list float :=
  Eval vm_compute in changes_of example_series.

(** The volatility of the test series under [direct_runtime]. *)
Definition example_volatility : float :=
  Eval vm_compute in
    match direct_stdev example_changes with
    | Ok v => v
    | Raise _ => 0%float
    end.

(** ** Builtins used by the other functions of the scripts *)

(** [bool(v)]: the truth value that [if v] and [not v] test. *)
Definition py_truthy (v : pyval) : bool :=
  match v with
  | PNone => false
  | PBool b => b
  | PInt z => negb (Z.eqb z 0)
  | PFloat f => negb (f =? 0)%float
  | PStr s => negb (String.eqb s "")
  | PList items | PTuple items => negb (Nat.eqb (length items) 0)
  | PDict d => negb (Nat.eqb (length d) 0)
  | PObj _ => true
  end.

(** [v == text] for a string literal [text]. *)
Definition py_eq_str (v : pyval) (text : string) : bool :=
  match v with
  | PStr s => String.eqb s text
  | _ => false
  end.

(** The one-character strings that iterating a [str] yields. *)
Fixpoint characters (s : string) : list pyval :=
  match s with
  | EmptyString => []
  | String c s' => PStr (String c EmptyString) :: characters s'
  end.

(** [for entry in v]: the entries, or [TypeError] when [v] is not iterable. *)
Definition py_iter (v : pyval) : pyresult (list pyval) :=
  match v with
  | PList items | PTuple items => Ok items
  | PDict d => Ok (map (fun kv => PStr (fst kv)) d)
  | PStr s => Ok (characters s)
  | _ => Raise TypeError
  end.

(** [len(v)]: [TypeError] for a value without a length. *)
Definition py_len (v : pyval) : pyresult nat :=
  match v with
  | PList items | PTuple items => Ok (length items)
  | PDict d => Ok (length d)
  | PStr s => Ok (String.length s)
  | _ => Raise TypeError
  end.

(** Formatting under a float format such as [:.6f]: only the exception it may
    raise matters, the text is printed and dropped. *)
Definition py_format_float (v : pyval) : pyresult unit :=
  match v with
  | PFloat _ | PBool _ => Ok tt
  | PInt z => _ ← float_of_int z; Ok tt
  | PStr _ => Raise ValueError
  | _ => Raise TypeError
  end.

(** ** [test_volatility.py]: [RealVolatilityTester] *)

Module RealVolatilityTester.

(** One iteration of [for entry in historical_data]. *)
Definition extract_step (prices : list pyval) (entry : pyval)
    : pyresult (list pyval) :=
  match entry with
  | PDict d =>
      match dict_get d "price" with
      | Some price => Ok (prices ++ [price])
      | None => Ok prices
      end
  | _ => Ok prices
  end.

(** The method [extract_prices]: the price fields as they are stored. *)
Definition extract_prices (historical_data : pyval) : pyresult (list pyval) :=
  if negb (py_truthy historical_data) || py_eq_str historical_data "Never"
  then Ok []
  else
    entries ← py_iter historical_data;
    for_each extract_step entries [].

(** The report on the format of the data inside [test_get_historical_price_data]:
    it prints, and can raise while formatting the sample price. *)
Definition report_format (historical_data : pyval) : pyresult unit :=
  _ ← py_len historical_data;
  match historical_data with
  | PList (PDict first_entry :: _) =>
      match dict_get first_entry "price" with
      | Some price => py_format_float price
      | None => Ok tt
      end
  | _ => Ok tt
  end.

(** The method [test_get_historical_price_data]; [bot_method] is
    [self.bot._get_historical_price_data], absent when the bot is [None] or
    has no such method.  The result is [None] or the data. *)
Definition test_get_historical_price_data
    (bot_method : option (string -> Z -> string -> pyresult pyval))
    (token timeframe : string) : io pyval :=
  io_try_except_Exception
    (let hours := timeframe_hours timeframe in
     match bot_method with
     | Some method =>
         historical_data ← fetch method token hours timeframe;
         if py_eq_str historical_data "Never" then mret PNone
         else if negb (py_truthy historical_data) then mret PNone
         else
           _ ← lift (report_format historical_data);
           mret historical_data
     | None => mret PNone
     end)
    (mret PNone).

(** [result > 1] for the interpretation that is printed. *)
Definition py_gt_one (v : pyval) : pyresult bool :=
  match v with
  | PFloat f => Ok (1 <? f)%float
  | PInt z => Ok (Z.ltb 1 z)
  | PBool _ => Ok false
  | _ => Raise TypeError
  end.

(** The method [test_calculate_relative_volatility]; [bot_method] is
    [self.bot._calculate_relative_volatility] and [bot_reference_tokens] is
    [self.bot.reference_tokens], each absent when the bot lacks it (or is
    [None]).  The result is [None] or the value of the bot. *)
Definition test_calculate_relative_volatility
    (bot_method : option (string -> list string -> gmap string pyval ->
                          string -> pyresult pyval))
    (bot_reference_tokens : option (list string))
    (token : string) (market_data : gmap string pyval) (timeframe : string)
    : pyresult pyval :=
  try_except_Exception
    (match bot_method, bot_reference_tokens with
     | Some method, Some reference_tokens =>
         result ← method token reference_tokens market_data timeframe;
         if is_None result then Ok PNone
         else
           _ ← py_format_float result;
           _ ← py_gt_one result;
           Ok result
     | _, _ => Ok PNone
     end)
    (Ok PNone).

End RealVolatilityTester.

(** ** [perform.py]: the other functions of [VolatilityTester] *)

(** An [int] as an exact binary number, before rounding. *)
Definition Z2SF (z : Z) : spec_float :=
  match z with
  | Z0 => S754_zero false
  | Zpos p => S754_finite false p 0
  | Zneg p => S754_finite true p 0
  end.

(** [a / b] on [int]s: the quotient rounded once to binary64;
    [ZeroDivisionError] for a zero divisor, [OverflowError] when the quotient
    is out of range. *)
Definition int_true_div (a b : Z) : pyresult float :=
  if Z.eqb b 0 then Raise ZeroDivisionError
  else
    let q := SF2Prim (SF64div (Z2SF a) (Z2SF b)) in
    if is_infinity q then Raise OverflowError else Ok q.

(** [f"{token}_{timeframe}"] *)
Definition result_key (token timeframe : string) : string :=
  String.append token (String.append "_" timeframe).

(** The copy of [extract_prices] inside [test_extract_prices_function]: it has
    one more case, for an entry with an attribute [price]. *)
Module ExtractPricesTest.
Section WithObjects.
Context `{Runtime}.

(** [price_attribute id]: the attribute [price] of the object [PObj id], when
    it has one.  Values of the builtin types have no such attribute. *)
Variable price_attribute : nat -> option pyval.

Definition getattr_price (entry : pyval) : option pyval :=
  match entry with
  | PObj id => price_attribute id
  | _ => None
  end.

Definition entry_price (entry : pyval) : pyresult (option float) :=
  match entry with
  | PDict d =>
      match dict_get d "price" with
      | Some v =>
          if is_None v then Ok None
          else try_except (p ← py_float v; Ok (Some p))
                 [ValueError; TypeError] (Ok None)
      | None => Ok None
      end
  | PList (first :: _) | PTuple (first :: _) =>
      if is_None first then Ok None
      else try_except (p ← py_float first; Ok (Some p))
             [ValueError; TypeError] (Ok None)
  | PList [] | PTuple [] => Ok None
  | _ =>
      match getattr_price entry with
      | Some v =>
          try_except (p ← py_float v; Ok (Some p))
            [ValueError; TypeError; OtherError "AttributeError"] (Ok None)
      | None =>
          match entry with
          | PInt _ | PFloat _ | PBool _ => p ← py_float entry; Ok (Some p)
          | _ => Ok None
          end
      end
  end.

Definition extract_step (prices : list float) (entry : pyval)
    : pyresult (list float) :=
  if is_None entry then Ok prices
  else
    try_except_Exception
      (price ← entry_price entry;
       match price with
       | Some p => if (0 <? p)%float then Ok (prices ++ [p]) else Ok prices
       | None => Ok prices
       end)
      (Ok prices).

Definition extract_prices (history_data : pyval) : pyresult (list float) :=
  match iter_entries history_data with
  | None => Ok []
  | Some es => for_each extract_step es []
  end.

End WithObjects.
End ExtractPricesTest.

(** A row of [SELECT price, volume, market_cap, timestamp FROM price_history]. *)
Record history_row : Type := {
  row_price : pyval;
  row_volume : pyval;
  row_market_cap : pyval;
  row_timestamp : pyval
}.

Definition history_entry (row : history_row) : pyval :=
  PDict [("price", row_price row); ("volume", row_volume row);
         ("market_cap", row_market_cap row); ("timestamp", row_timestamp row)].

(** The lookup of [test_get_historical_price_data]: ["Never"] without rows,
    [None] when the database raises. *)
Definition mock_get_historical_price_data
    (query : string -> Z -> pyresult (list history_row))
    (token : string) (hours : Z) (timeframe : string) : pyresult pyval :=
  try_except_Exception
    (results ← query token hours;
     match results with
     | [] => Ok (PStr "Never")
     | _ => Ok (PList (map history_entry results))
     end)
    (Ok PNone).

(** A row of [SELECT chain as token, price, volume, price_change_24h,
    market_cap FROM market_data]. *)
Record market_row : Type := {
  mr_token : string;
  mr_price : pyval;
  mr_volume : pyval;
  mr_price_change_24h : pyval;
  mr_market_cap : pyval
}.

(** [v if v else 0] *)
Definition or_zero (v : pyval) : pyval := if py_truthy v then v else PInt 0.

Definition market_entry (row : market_row) : pyval :=
  PDict [("current_price", mr_price row);
         ("volume", or_zero (mr_volume row));
         ("price_change_percentage_24h", or_zero (mr_price_change_24h row));
         ("market_cap", or_zero (mr_market_cap row))].

(** The loop [for row in cursor.fetchall(): market_data[row['token']] = ...]. *)
Definition market_data_of (rows : list market_row) : gmap string pyval :=
  fold_left (fun market_data row =>
               <[mr_token row := market_entry row]> market_data) rows ∅.

(** [get_real_market_data]: [market_query] is the outcome of the [SELECT]. *)
Definition get_real_market_data (market_query : pyresult (list market_row))
    : pyresult (gmap string pyval) :=
  try_except_Exception
    (rows ← market_query; Ok (market_data_of rows))
    (Ok ∅).

(** [self.reference_tokens] *)
Definition reference_tokens : list string :=
  ["BTC"; "ETH"; "SOL"; "XRP"; "BNB"; "AVAX"; "DOT"; "UNI"; "NEAR"; "AAVE"].

Definition test_tokens : list string := ["BTC"; "ETH"; "SOL"].
Definition timeframes : list string := ["1h"; "24h"; "7d"].

(** An entry of [results] in [test_complete_method]. *)
Inductive method_result : Type :=
| SUCCESS (relative_volatility : float) (interpretation : string)
| INSUFFICIENT_DATA
| ERROR (error : exn).

Definition is_SUCCESS (r : method_result) : bool :=
  match r with SUCCESS _ _ => true | _ => false end.

(** What [test_complete_method] stores under its name in [test_results]. *)
Record method_summary : Type := {
  ms_status : string;
  ms_successful_tests : nat;
  ms_total_tests : nat;
  ms_success_rate : pyval;
  ms_results : gmap string method_result
}.

Section MethodTest.
Context `{Runtime}.
Variable query : string -> Z -> pyresult (list pyval).

(** The body of the two nested loops. *)
Definition method_test_step (real_market_data : gmap string pyval)
    (token : string) (results : gmap string method_result)
    (timeframe : string) : gmap string method_result :=
  let key := result_key token timeframe in
  match outcome (calculate_relative_volatility query token reference_tokens
                   real_market_data timeframe) with
  | Ok (Some volatility) =>
      <[key := SUCCESS volatility
                 (if (1 <? volatility)%float then "More volatile"
                  else "Less volatile")]> results
  | Ok None => <[key := INSUFFICIENT_DATA]> results
  | Raise e => <[key := ERROR e]> results
  end.

Definition method_test_results (real_market_data : gmap string pyval)
    : gmap string method_result :=
  fold_left
    (fun results token =>
       fold_left (method_test_step real_market_data token) timeframes results)
    test_tokens ∅.

(** [len([r for r in results.values() if r["status"] == "SUCCESS"])] *)
Definition count_successes (results : gmap string method_result) : nat :=
  length (List.filter is_SUCCESS (map snd (map_to_list results))).

(** The summary that the method stores in [test_results]. *)
Definition summarize (results : gmap string method_result)
    : pyresult method_summary :=
  let successful_tests := count_successes results in
  let total_tests := size results in
  success_rate ←
    (if (0 <? total_tests)%nat then
       r ← int_true_div (Z.of_nat successful_tests) (Z.of_nat total_tests);
       Ok (PFloat r)
     else Ok (PInt 0));
  Ok {| ms_status := if (0 <? successful_tests)%nat then "PASSED" else "FAILED";
        ms_successful_tests := successful_tests;
        ms_total_tests := total_tests;
        ms_success_rate := success_rate;
        ms_results := results |}.

(** [test_complete_method] after the definition of the function under test. *)
Definition test_complete_method (market_query : pyresult (list market_row))
    : pyresult method_summary :=
  real_market_data ← get_real_market_data market_query;
  summarize (method_test_results real_market_data).

End MethodTest.

(** The name of an exception class, as [type(e).__name__] gives it. *)
Definition exn_name (e : exn) : string :=
  match e with
  | ValueError => "ValueError"
  | TypeError => "TypeError"
  | OverflowError => "OverflowError"
  | ZeroDivisionError => "ZeroDivisionError"
  | IndexError => "IndexError"
  | StatisticsError => "StatisticsError"
  | OtherError name => name
  end.

(** [test_volatility_with_errors] of [test_error_handling]; [connect] is the
    outcome of [sqlite3.connect("nonexistent.db")] and [conn.close()]. *)
Definition test_volatility_with_errors `{Runtime} (connect : pyresult unit)
    (token : string) (reference_tokens : list string)
    (market_data : gmap string pyval) (timeframe : string)
    : option float * list string :=
  let error_scenarios : list string := [] in
  if negb (existsb (String.eqb timeframe) ["1h"; "24h"; "7d"]) then
    (None, error_scenarios ++ ["invalid_timeframe"])
  else if negb (py_truthy (PList (map PStr reference_tokens))) then
    (None, error_scenarios ++ ["empty_reference_tokens"])
  else if negb (member market_data token) then
    (None, error_scenarios ++ ["missing_token_in_market_data"])
  else
    let error_scenarios :=
      match connect with
      | Ok _ => error_scenarios
      | Raise _ => error_scenarios ++ ["database_connection_failed"]
      end in
    let mock_empty_data : list pyval := [] in
    if (length mock_empty_data <? 5)%nat then
      (None, error_scenarios ++ ["insufficient_historical_data"])
    else
      match stdev [1%float] with
      | Ok _ => (Some 1%float, error_scenarios)
      | Raise e =>
          if isinstance e StatisticsError then
            (None, error_scenarios ++ ["statistics_calculation_error"])
          else
            (None, error_scenarios
                   ++ [String.append "unexpected_exception_" (exn_name e)])
      end.

(** The class [MockBot] of [test_integration_flow]; [hash] is the builtin,
    which differs from one run of the interpreter to the next. *)
Module MockBot.
Section WithHash.
Variable hash : string -> Z.

(** [table.get(key, default)] for a dict literal. *)
Fixpoint get_default (table : list (string * float)) (key : string)
    (default : float) : float :=
  match table with
  | [] => default
  | (k, v) :: table' =>
      if String.eqb k key then v else get_default table' key default
  end.

#[local] Set Warnings "-inexact-float".

Definition base_volatility (token : string) : float :=
  get_default [("BTC", 1.0); ("ETH", 1.2); ("SOL", 1.5); ("XRP", 0.8)]%float
    token 1.0%float.

Definition timeframe_multiplier (timeframe : string) : float :=
  get_default [("1h", 0.8); ("24h", 1.0); ("7d", 1.3)]%float
    timeframe 1.0%float.

(** [0.8 + (hash(token) % 100) / 250] *)
Definition random_factor (token : string) : pyresult float :=
  q ← int_true_div (hash token mod 100) 250; Ok (0.8 + q)%float.

#[local] Set Warnings "+inexact-float".

(** The method, with the attribute [volatility_cache] threaded through. *)
Definition _calculate_relative_volatility (volatility_cache : gmap string float)
    (token : string) (ref_tokens : list string)
    (market_data : gmap string pyval) (timeframe : string)
    : pyresult (float * gmap string float) :=
  let cache_key := result_key token timeframe in
  match volatility_cache !! cache_key with
  | Some cached => Ok (cached, volatility_cache)
  | None =>
      factor ← random_factor token;
      let final_volatility :=
        (base_volatility token * timeframe_multiplier timeframe * factor)%float in
      Ok (final_volatility, <[cache_key := final_volatility]> volatility_cache)
  end.

End WithHash.
End MockBot.

(** [test_integration_flow] of [test_data_flow_integration], up to the dict it
    returns; the constructors are its values of ["status"]. *)
Module IntegrationFlow.

Inductive result : Type :=
| NO_REAL_DATA
| SUCCESS (extended_metrics : list (string * float))
| NO_DATA
| METHOD_ERROR (error : exn)
| METHOD_NOT_FOUND
| INTEGRATION_ERROR (error : exn).

(** The field ["integration_working"] of the dict. *)
Definition integration_working (r : result) : bool :=
  match r with
  | SUCCESS _ | NO_DATA | METHOD_ERROR _ => true
  | NO_REAL_DATA | METHOD_NOT_FOUND | INTEGRATION_ERROR _ => false
  end.

(** The mock bot is created on the spot, with an empty cache, and its class
    defines the method, so the [hasattr] test holds; the method returns a
    float, so the test [is not None] holds. *)
Definition test_integration_flow (hash : string -> Z)
    (market_query : pyresult (list market_row)) : result :=
  match rows ← market_query; Ok (market_data_of rows) with
  | Raise e => INTEGRATION_ERROR e
  | Ok market_data =>
      if Nat.eqb (size market_data) 0 then NO_REAL_DATA
      else
        match MockBot._calculate_relative_volatility hash ∅ "BTC"
                ["ETH"; "SOL"; "XRP"] market_data "1h" with
        | Ok (token_volatility, _) =>
            SUCCESS [("relative_volatility", token_volatility)]
        | Raise e => METHOD_ERROR e
        end
  end.

(** The status that [test_data_flow_integration] stores. *)
Definition status (r : result) : string :=
  if integration_working r then "PASSED" else "FAILED".

End IntegrationFlow.

(** The scenario loop of [test_get_historical_price_data] in [perform.py]. *)
Module LookupScenarios.

(** An entry of [results]; the constructors are its values of ["status"]. *)
Inductive scenario_result : Type :=
| NO_DATA
| ERROR
| SUCCESS (data_points : nat) (sample : list pyval)
| EXCEPTION (error : exn).

Definition is_SUCCESS (r : scenario_result) : bool :=
  match r with SUCCESS _ _ => true | _ => false end.

(** [test_scenarios]: token, hours, timeframe. *)
Definition test_scenarios : list (string * Z * string) :=
  [("BTC", 24, "1h"); ("ETH", 168, "24h"); ("SOL", 720, "7d");
   ("NONEXISTENT", 24, "1h")].

(** The body of the loop, up to the key it stores under. *)
Definition scenario_outcome
    (query : string -> Z -> pyresult (list history_row))
    (scenario : string * Z * string) : scenario_result :=
  let '(token, hours, timeframe) := scenario in
  match mock_get_historical_price_data query token hours timeframe with
  | Raise e => EXCEPTION e
  | Ok history_data =>
      if py_eq_str history_data "Never" then NO_DATA
      else if is_None history_data then ERROR
      else
        match history_data with
        | PList items =>
            let data_points := length items in
            SUCCESS data_points
              (if (0 <? data_points)%nat then firstn 2 items else [])
        | _ => SUCCESS 0 []
        end
  end.

Definition scenario_results
    (query : string -> Z -> pyresult (list history_row))
    : gmap string scenario_result :=
  fold_left
    (fun results scenario =>
       <[result_key scenario.1.1 scenario.2 := scenario_outcome query scenario]>
         results)
    test_scenarios ∅.

(** The status stored for the test: ["PASSED"] or ["NO_DATA"]. *)
Definition status (query : string -> Z -> pyresult (list history_row))
    : string :=
  if existsb is_SUCCESS (map snd (map_to_list (scenario_results query)))
  then "PASSED" else "NO_DATA".

End LookupScenarios.

(** [test_database_schema]; [connect] is the outcome of opening the database
    and [table_info table] the column names that [PRAGMA table_info] lists. *)
Module DatabaseSchema.

Inductive table_report : Type :=
| OK (columns : list string)
| MISSING_COLUMNS (columns missing_columns : list string)
| MISSING_TABLE.

Definition is_OK (r : table_report) : bool :=
  match r with OK _ => true | _ => false end.

Definition required_tables : list (string * list string) :=
  [("price_history",
    ["id"; "token"; "timestamp"; "price"; "volume"; "market_cap"]);
   ("market_data", ["id"; "timestamp"; "chain"; "price"; "volume"]);
   ("technical_indicators", ["id"; "token"; "timestamp"])].

(** [[col for col in required_columns if col not in columns]] *)
Definition missing_of (required_columns columns : list string) : list string :=
  List.filter (fun col => negb (existsb (String.eqb col) columns))
    required_columns.

(** One iteration of [for table_name, required_columns in ...]: the inner
    [try] catches [sqlite3.OperationalError] only. *)
Definition schema_step (table_info : string -> pyresult (list string))
    (schema_results : gmap string table_report)
    (table : string * list string) : pyresult (gmap string table_report) :=
  let '(table_name, required_columns) := table in
  try_except
    (columns ← table_info table_name;
     let missing_columns := missing_of required_columns columns in
     Ok (<[table_name :=
             match missing_columns with
             | [] => OK columns
             | _ => MISSING_COLUMNS columns missing_columns
             end]> schema_results))
    [OtherError "sqlite3.OperationalError"]
    (Ok (<[table_name := MISSING_TABLE]> schema_results)).

(** The status stored for the test, with the reports when it has them. *)
Definition test_database_schema (connect : pyresult unit)
    (table_info : string -> pyresult (list string))
    : string * option (gmap string table_report) :=
  match (_ ← connect; for_each (schema_step table_info) required_tables ∅) with
  | Ok schema_results =>
      (if forallb is_OK (map snd (map_to_list schema_results))
       then "PASSED" else "PARTIAL",
       Some schema_results)
  | Raise _ => ("FAILED", None)
  end.

End DatabaseSchema.

(** ** Notions used in the further statements *)

(** What [RealVolatilityTester.extract_prices] takes from one entry. *)
Definition stored_price (entry : pyval) : list pyval :=
  match entry with
  | PDict d =>
      match dict_get d "price" with
      | Some price => [price]
      | None => []
      end
  | _ => []
  end.

(** Values that [for entry in v] accepts. *)
Definition is_iterable (v : pyval) : bool :=
  match v with
  | PList _ | PTuple _ | PDict _ | PStr _ => true
  | _ => false
  end.

(** An object with an attribute [price] seen as a record with that price. *)
Definition as_record (price_attribute : nat -> option pyval) (entry : pyval)
    : pyval :=
  match entry with
  | PObj id =>
      match price_attribute id with
      | Some v => PDict [("price", v)]
      | None => entry
      end
  | _ => entry
  end.

Definition objects_as_records (price_attribute : nat -> option pyval)
    (history_data : pyval) : pyval :=
  match history_data with
  | PList es => PList (map (as_record price_attribute) es)
  | PTuple es => PTuple (map (as_record price_attribute) es)
  | _ => history_data
  end.

(** The price column of a query of [mock_get_historical_price_data]: what the
    lookup of [calculate_relative_volatility] selects from the same rows. *)
Definition price_column (query : string -> Z -> pyresult (list history_row))
    : string -> Z -> pyresult (list pyval) :=
  fun token hours => rows ← query token hours; Ok (map row_price rows).

(** The entry that [test_complete_method] records for one token and timeframe. *)
Definition method_entry `{Runtime} (query : string -> Z -> pyresult (list pyval))
    (real_market_data : gmap string pyval) (token timeframe : string)
    : method_result :=
  match outcome (calculate_relative_volatility query token reference_tokens
                   real_market_data timeframe) with
  | Ok (Some volatility) =>
      SUCCESS volatility
        (if (1 <? volatility)%float then "More volatile" else "Less volatile")
  | Ok None => INSUFFICIENT_DATA
  | Raise e => ERROR e
  end.

(** The market data behind a query, empty when the query raises. *)
Definition market_data_behind (market_query : pyresult (list market_row))
    : gmap string pyval :=
  match market_query with
  | Ok rows => market_data_of rows
  | Raise _ => ∅
  end.

(** The report that [test_database_schema] stores for one table, or the
    exception that ends the test. *)
Definition schema_report (table_info : string -> pyresult (list string))
    (table_name : string) (required_columns : list string)
    : pyresult DatabaseSchema.table_report :=
  match table_info table_name with
  | Ok columns =>
      Ok (match DatabaseSchema.missing_of required_columns columns with
          | [] => DatabaseSchema.OK columns
          | missing => DatabaseSchema.MISSING_COLUMNS columns missing
          end)
  | Raise e =>
      if handles [OtherError "sqlite3.OperationalError"] e
      then Ok DatabaseSchema.MISSING_TABLE else Raise e
  end.

(** Inputs for the further examples. *)
Definition example_market_rows : list market_row :=
  [ {| mr_token := "BTC"; mr_price := PFloat 100; mr_volume := PNone;
       mr_price_change_24h := PFloat 0; mr_market_cap := PInt 5 |};
    {| mr_token := "ETH"; mr_price := PFloat 10; mr_volume := PInt 7;
       mr_price_change_24h := PNone; mr_market_cap := PNone |};
    {| mr_token := "BTC"; mr_price := PFloat 101; mr_volume := PInt 3;
       mr_price_change_24h := PFloat 1; mr_market_cap := PInt 6 |} ].

Definition example_history_rows : list history_row :=
  map (fun p => {| row_price := PFloat p; row_volume := PInt 1;
                   row_market_cap := PNone; row_timestamp := PStr "t" |})
      example_series.

(** The quotients [n / 250] for the hundred values of [hash(token) % 100] lie
    in the range the comment of the mock states, checked by evaluation. *)
#[local] Set Warnings "-inexact-float".
Definition factor_in_range (n : nat) : bool :=
  match int_true_div (Z.of_nat n) 250 with
  | Ok q => ((0.8 <=? 0.8 + q) && (0.8 + q <=? 1.2))%float
  | Raise _ => false
  end.
#[local] Set Warnings "+inexact-float".

(** * Properties *)

(** ** The model on concrete inputs *)

Example float_of_int_ties_to_even :
  float_of_int (2 ^ 53 + 1) = Ok 9007199254740992%float.
Proof. vm_compute. reflexivity. Qed.

Example float_of_int_overflow : float_of_int (2 ^ 1024) = Raise OverflowError.
Proof. vm_compute. reflexivity. Qed.

Example extract_prices_mixed :
  extract_prices
    (PList [PFloat 1.5; PInt 3; PDict [("price", PStr "42")];
            PTuple [PFloat 2; PInt 0]; PStr "7"; PNone;
            PDict [("price", PStr "n/a")]; PDict [("cost", PFloat 9)];
            PInt (2 ^ 2000); PBool true; PFloat nan; PFloat (-1);
            PList []; PObj 0])
  = Ok [1.5; 3; 42; 2; 1]%float.
Proof. vm_compute. reflexivity. Qed.

Example extract_prices_not_iterable :
  extract_prices PNone = Ok [] /\ extract_prices (PStr "100") = Ok []
  /\ extract_prices (PFloat 100) = Ok []
  /\ extract_prices (PDict [("price", PFloat 100)]) = Ok [].
Proof. repeat apply conj; vm_compute; reflexivity. Qed.

Example example_series_run :
  calculate_relative_volatility (same_rows example_series) "SOL"
    ["BTC"; "DOGE"; "ETH"] example_market "24h"
  = IO (Ok (Some 1%float)) [("SOL", 168, "24h"); ("BTC", 168, "24h");
                            ("ETH", 168, "24h")].
Proof. vm_compute. reflexivity. Qed.

(** ** Binary64 facts *)

Abbreviation positive_price p := ((0 <? p)%float = true).
Abbreviation finite_above p := ((p <? infinity)%float = true).

Lemma Prim2SF_zero : Prim2SF 0%float = S754_zero false.
Proof. reflexivity. Qed.

(** A quotient of equal finite mantissas rounds to one exactly. *)
Lemma SF64div_same (s : bool) (m : positive) (e : Z) :
  SF64div (S754_finite s m e) (S754_finite s m e) = Prim2SF 1%float.
Proof.
  unfold SF64div, SFdiv, SFdiv_core_binary.
  replace (Z.add (Zdigits2 (Z.pos m)) e - Z.add (Zdigits2 (Z.pos m)) e)
    with 0 by lia.
  replace (e - e) with 0 by lia.
  change (Z.min (fexp prec emax 0) 0) with (-53).
  change (0 - -53) with 53. cbv beta iota zeta.
  assert (Hq : Z.div_eucl (Z.shiftl (Z.pos m) 53) (Z.pos m) = (2 ^ 53, 0)).
  { rewrite Z.shiftl_mul_pow2 by lia.
    rewrite (surjective_pairing (Z.div_eucl _ _)).
    change (fst (Z.div_eucl ?a ?b)) with (Z.div a b).
    change (snd (Z.div_eucl ?a ?b)) with (Z.modulo a b).
    rewrite (Z.mul_comm (Z.pos m)), Z.div_mul, Z.mod_mul by lia.
    reflexivity. }
  rewrite Hq. unfold new_location, new_location_even, new_location_odd.
  change (Z.eqb 0 0) with true.
  destruct (Z.even (Z.pos m)), s; reflexivity.
Qed.

Lemma div_same (x : float) :
  positive_price x -> finite_above x -> (x / x)%float = 1%float.
Proof.
  intros Hpos Hfin. apply Prim2SF_inj. rewrite FloatAxioms.div_spec.
  rewrite FloatAxioms.ltb_spec in Hpos, Hfin.
  destruct (Prim2SF x) as [s|s| |s m e]; try discriminate.
  - destruct s; discriminate.
  - apply SF64div_same.
Qed.

Lemma positive_not_zero (x : float) :
  positive_price x -> (x =? 0)%float = false.
Proof.
  rewrite FloatAxioms.ltb_spec, FloatAxioms.eqb_spec, Prim2SF_zero.
  destruct (Prim2SF x) as [s|s| |s m e]; try discriminate;
    destruct s; try discriminate; reflexivity.
Qed.

Lemma zero_not_positive (x : float) :
  (x =? 0)%float = true -> (0 <? x)%float = false.
Proof.
  intros Hz. destruct (0 <? x)%float eqn:Hpos; [|reflexivity].
  rewrite (positive_not_zero x Hpos) in Hz. discriminate.
Qed.

Lemma nonpositive_not_positive (x : float) :
  (x <=? 0)%float = true -> (0 <? x)%float = false.
Proof.
  rewrite FloatAxioms.ltb_spec, FloatAxioms.leb_spec, Prim2SF_zero.
  destruct (Prim2SF x) as [s|s| |s m e]; try discriminate;
    destruct s; try discriminate; reflexivity.
Qed.

(** ** The error monad *)

(** A loop whose body only appends never raises and appends chunk by chunk. *)
Lemma for_each_append {A B} (body : list B -> A -> pyresult (list B))
    (chunk : A -> list B) :
  (forall acc x, body acc x = Ok (acc ++ chunk x)) ->
  forall xs acc, for_each body xs acc = Ok (acc ++ concat (map chunk xs)).
Proof.
  intros Hbody xs. induction xs as [|x xs IH]; intros acc; cbn.
  - now rewrite app_nil_r.
  - rewrite Hbody. cbn. rewrite IH. now rewrite <- app_assoc.
Qed.

(** ** [extract_prices] *)

Section ExtractionFacts.
Context `{Runtime}.

Lemma extract_step_append (prices : list float) (entry : pyval) :
  extract_step prices entry = Ok (prices ++ kept_price entry).
Proof.
  unfold kept_price, extract_step.
  destruct (is_None entry); [now rewrite app_nil_r|].
  destruct (entry_price entry) as [[p|]|e]; cbn;
    try destruct (0 <? p)%float; cbn; now rewrite ?app_nil_r.
Qed.

Lemma kept_price_positive (entry : pyval) :
  Forall (fun p => positive_price p) (kept_price entry).
Proof.
  unfold kept_price, extract_step.
  destruct (is_None entry); [constructor|].
  destruct (entry_price entry) as [[p|]|e]; cbn; try constructor.
  destruct (0 <? p)%float eqn:Hp; cbn; repeat constructor. exact Hp.
Qed.

Lemma extract_prices_list (es : list pyval) :
  extract_prices (PList es) = Ok (concat (map kept_price es)).
Proof.
  unfold extract_prices. cbn.
  now rewrite (for_each_append extract_step kept_price extract_step_append).
Qed.

(** [extract_prices] returns for every value, and returns positive floats. *)
Lemma extract_prices_total (history_data : pyval) :
  exists prices, extract_prices history_data = Ok prices
                 /\ Forall (fun p => positive_price p) prices.
Proof.
  unfold extract_prices. destruct (iter_entries history_data) as [es|].
  - rewrite (for_each_append extract_step kept_price extract_step_append).
    eexists; split; [reflexivity|]. cbn.
    induction es as [|e es IH]; cbn; [constructor|].
    apply Forall_app; split; [apply kept_price_positive|exact IH].
  - exists []. split; [reflexivity|constructor].
Qed.

(** The price of an entry only depends on the value it carries. *)
Lemma kept_price_carries (v entry : pyval) :
  is_number v = true -> carries v entry -> kept_price entry = kept_price v.
Proof.
  intros Hnum Hc. destruct Hc as [_|d Hd|rest|rest].
  - reflexivity.
  - unfold kept_price, extract_step. cbn. rewrite Hd.
    destruct v; try discriminate; cbn; try reflexivity.
    destruct (float_of_int z) as [f|e]; cbn; [reflexivity|].
    now destruct (handles _ e).
  - unfold kept_price, extract_step.
    destruct v; try discriminate; cbn; try reflexivity.
    destruct (float_of_int z) as [f|e]; cbn; [reflexivity|].
    now destruct (handles _ e).
  - unfold kept_price, extract_step.
    destruct v; try discriminate; cbn; try reflexivity.
    destruct (float_of_int z) as [f|e]; cbn; [reflexivity|].
    now destruct (handles _ e).
Qed.

Lemma kept_price_float (x : float) :
  kept_price (PFloat x) = if (0 <? x)%float then [x] else [].
Proof.
  unfold kept_price, extract_step. cbn. now destruct (0 <? x)%float.
Qed.



End ExtractionFacts.

(** ** The percentage-change loop *)

Lemma index_lookup (l : list float) (i : nat) (x : float) :
  l !! i = Some x -> index l i = Ok x.
Proof. unfold index. now intros ->. Qed.

Lemma pct_change_positive (cur prev : float) :
  positive_price prev -> pct_change cur prev = Ok ((cur / prev - 1) * 100)%float.
Proof.
  intros Hp. unfold pct_change, py_div. now rewrite (positive_not_zero _ Hp).
Qed.

(** With a positive prior price the change is appended. *)
Lemma change_step_computed (prices changes : list float) (i : nat)
    (prev cur : float) :
  prices !! (i - 1)%nat = Some prev -> prices !! i = Some cur ->
  positive_price prev ->
  change_step prices changes i
  = Ok (changes ++ [((cur / prev - 1) * 100)%float]).
Proof.
  intros Hprev Hcur Hp. unfold change_step.
  rewrite (index_lookup _ _ _ Hprev). cbn. rewrite Hp.
  rewrite (index_lookup _ _ _ Hcur). cbn.
  now rewrite (pct_change_positive _ _ Hp).
Qed.

(** Without a positive prior price nothing is appended and nothing is divided. *)
Lemma change_step_skipped (prices changes : list float) (i : nat) (prev : float) :
  prices !! (i - 1)%nat = Some prev -> (0 <? prev)%float = false ->
  change_step prices changes i = Ok changes.
Proof.
  intros Hprev Hp. unfold change_step.
  rewrite (index_lookup _ _ _ Hprev). cbn. now rewrite Hp.
Qed.

Lemma change_step_changes_of (l changes : list float) (k : nat)
    (prev cur : float) (rest : list float) :
  drop k l = prev :: cur :: rest ->
  change_step l changes (S k)
  = Ok (changes
        ++ if (0 <? prev)%float then [((cur / prev - 1) * 100)%float] else []).
Proof.
  intros Hdrop.
  assert (Hprev : l !! k = Some prev).
  { rewrite <- (Nat.add_0_r k), <- lookup_drop, Hdrop. reflexivity. }
  assert (Hcur : l !! S k = Some cur).
  { replace (S k) with (k + 1)%nat by lia.
    rewrite <- lookup_drop, Hdrop. reflexivity. }
  destruct (0 <? prev)%float eqn:Hp.
  - apply change_step_computed; [|assumption..].
    now replace (S k - 1)%nat with k by lia.
  - rewrite app_nil_r. apply (change_step_skipped _ _ _ prev); [|assumption].
    now replace (S k - 1)%nat with k by lia.
Qed.

Lemma changes_loop (l : list float) :
  forall n k acc, (k + n + 1 = length l)%nat ->
    for_each (change_step l) (seq (S k) n) acc
    = Ok (acc ++ changes_of (drop k l)).
Proof.
  induction n as [|n IH]; intros k acc Hlen.
  - cbn. destruct (drop k l) as [|x [|y rest]] eqn:Hdrop.
    + now rewrite app_nil_r.
    + now rewrite app_nil_r.
    + apply (f_equal length) in Hdrop. rewrite length_drop in Hdrop.
      cbn in Hdrop. lia.
  - destruct (drop k l) as [|prev [|cur rest]] eqn:Hdrop.
    + apply (f_equal length) in Hdrop. rewrite length_drop in Hdrop.
      cbn in Hdrop. lia.
    + apply (f_equal length) in Hdrop. rewrite length_drop in Hdrop.
      cbn in Hdrop. lia.
    + assert (Hnext : drop (S k) l = cur :: rest).
      { replace (S k) with (k + 1)%nat by lia.
        rewrite <- drop_drop, Hdrop. reflexivity. }
      cbn [seq for_each].
      rewrite (change_step_changes_of l acc k prev cur rest Hdrop). cbn.
      rewrite (IH (S k)) by lia. rewrite Hnext.
      cbn [changes_of]. now rewrite <- app_assoc.
Qed.

(** The loop never raises, on any list of floats. *)
Lemma price_changes_eq (prices : list float) :
  price_changes prices = Ok (changes_of prices).
Proof.
  unfold price_changes. destruct prices as [|p ps]; [reflexivity|].
  rewrite (changes_loop (p :: ps) (length (p :: ps) - 1) 0 []).
  - reflexivity.
  - cbn. lia.
Qed.

Lemma changes_of_cons (prev cur : float) (rest : list float) :
  changes_of (prev :: cur :: rest)
  = (if (0 <? prev)%float then [((cur / prev - 1) * 100)%float] else [])
    ++ changes_of (cur :: rest).
Proof. reflexivity. Qed.

Lemma changes_of_length (prices : list float) :
  Forall (fun p => positive_price p) prices ->
  length (changes_of prices) = (length prices - 1)%nat.
Proof.
  induction prices as [|p rest IH]; intros Hall; [reflexivity|].
  inversion Hall as [|? ? Hp Hrest]; subst.
  destruct rest as [|q rest]; [reflexivity|].
  rewrite changes_of_cons, Hp. cbn [app length].
  rewrite (IH Hrest). cbn. lia.
Qed.

(** The changes of a constant finite series are all zero. *)
Lemma changes_of_constant (c : float) (n : nat) :
  positive_price c -> finite_above c ->
  changes_of (replicate n c) = replicate (n - 1) 0%float.
Proof.
  intros Hpos Hfin. induction n as [|n IH]; [reflexivity|].
  destruct n as [|n]; [reflexivity|].
  change (replicate (S (S n)) c) with (c :: c :: replicate n c).
  rewrite changes_of_cons, Hpos.
  change (c :: replicate n c) with (replicate (S n) c). rewrite IH.
  rewrite (div_same c Hpos Hfin).
  replace (S (S n) - 1)%nat with (S (S n - 1)) by lia. reflexivity.
Qed.

(** ** Code that calls the lookup *)

(** ** The observed loop *)

Lemma py_div_positive (cur prev : float) :
  positive_price prev -> py_div cur prev = Ok (cur / prev)%float.
Proof. intros Hp. unfold py_div. now rewrite (positive_not_zero _ Hp). Qed.

(** Without its log, an observed iteration is the iteration of the loop. *)
Lemma change_step_observed_returned (prices changes : list float) (i : nat) :
  returned (change_step_observed prices changes i)
  = change_step prices changes i.
Proof.
  unfold change_step_observed, change_step, pct_change_observed, pct_change,
    divide, quiet, observed_try_except.
  destruct (index prices (i - 1)) as [prev|e]; cbn; [|reflexivity].
  destruct (0 <? prev)%float; cbn; [|reflexivity].
  destruct (index prices i) as [cur|e]; cbn.
  - destruct (py_div cur prev) as [q|e]; cbn; [reflexivity|].
    unfold try_except. now destruct (handles _ e).
  - unfold try_except. now destruct (handles _ e).
Qed.

Lemma observed_loop_returned (prices : list float) (ks : list nat) :
  forall acc,
    returned (observed_for_each (change_step_observed prices) ks acc)
    = for_each (change_step prices) ks acc.
Proof.
  induction ks as [|i ks IH]; intros acc; [reflexivity|].
  cbn [observed_for_each for_each].
  rewrite <- change_step_observed_returned.
  destruct (change_step_observed prices acc i) as [[acc'|e] ds]; cbn;
    [apply IH|reflexivity].
Qed.

Lemma change_step_observed_computed (prices changes : list float) (i : nat)
    (prev cur : float) :
  prices !! (i - 1)%nat = Some prev -> prices !! i = Some cur ->
  positive_price prev ->
  change_step_observed prices changes i
  = Observed (Ok (changes ++ [((cur / prev - 1) * 100)%float])) [(cur, prev)].
Proof.
  intros Hprev Hcur Hp.
  unfold change_step_observed, pct_change_observed, divide, quiet,
    observed_try_except.
  rewrite (index_lookup _ _ _ Hprev). cbn. rewrite Hp.
  rewrite (index_lookup _ _ _ Hcur). cbn.
  now rewrite (py_div_positive _ _ Hp).
Qed.

(** With a prior price that is not positive nothing is divided. *)
Lemma change_step_observed_skipped (prices changes : list float) (i : nat)
    (prev : float) :
  prices !! (i - 1)%nat = Some prev -> (0 <? prev)%float = false ->
  change_step_observed prices changes i = Observed (Ok changes) [].
Proof.
  intros Hprev Hp. unfold change_step_observed, quiet.
  rewrite (index_lookup _ _ _ Hprev). cbn. now rewrite Hp.
Qed.

Lemma change_step_observed_divisions_of (l changes : list float) (k : nat)
    (prev cur : float) (rest : list float) :
  drop k l = prev :: cur :: rest ->
  change_step_observed l changes (S k)
  = Observed
      (Ok (changes
           ++ if (0 <? prev)%float then [((cur / prev - 1) * 100)%float]
              else []))
      (if (0 <? prev)%float then [(cur, prev)] else []).
Proof.
  intros Hdrop.
  assert (Hprev : l !! k = Some prev).
  { rewrite <- (Nat.add_0_r k), <- lookup_drop, Hdrop. reflexivity. }
  assert (Hcur : l !! S k = Some cur).
  { replace (S k) with (k + 1)%nat by lia.
    rewrite <- lookup_drop, Hdrop. reflexivity. }
  destruct (0 <? prev)%float eqn:Hp.
  - apply change_step_observed_computed; [|assumption..].
    now replace (S k - 1)%nat with k by lia.
  - rewrite app_nil_r.
    apply (change_step_observed_skipped _ _ _ prev); [|assumption].
    now replace (S k - 1)%nat with k by lia.
Qed.

Lemma observed_loop (l : list float) :
  forall n k acc, (k + n + 1 = length l)%nat ->
    observed_for_each (change_step_observed l) (seq (S k) n) acc
    = Observed (Ok (acc ++ changes_of (drop k l))) (divisions_of (drop k l)).
Proof.
  induction n as [|n IH]; intros k acc Hlen.
  - cbn. destruct (drop k l) as [|x [|y rest]] eqn:Hdrop.
    + now rewrite app_nil_r.
    + now rewrite app_nil_r.
    + apply (f_equal length) in Hdrop. rewrite length_drop in Hdrop.
      cbn in Hdrop. lia.
  - destruct (drop k l) as [|prev [|cur rest]] eqn:Hdrop.
    + apply (f_equal length) in Hdrop. rewrite length_drop in Hdrop.
      cbn in Hdrop. lia.
    + apply (f_equal length) in Hdrop. rewrite length_drop in Hdrop.
      cbn in Hdrop. lia.
    + assert (Hnext : drop (S k) l = cur :: rest).
      { replace (S k) with (k + 1)%nat by lia.
        rewrite <- drop_drop, Hdrop. reflexivity. }
      cbn [seq observed_for_each].
      rewrite (change_step_observed_divisions_of l acc k prev cur rest Hdrop).
      cbn. rewrite (IH (S k)) by lia. rewrite Hnext. cbn.
      now rewrite <- app_assoc.
Qed.

(** The observed loop never raises, on any list of floats. *)
Lemma price_changes_observed_eq (prices : list float) :
  price_changes_observed prices
  = Observed (Ok (changes_of prices)) (divisions_of prices).
Proof.
  unfold price_changes_observed. destruct prices as [|p ps]; [reflexivity|].
  rewrite (observed_loop (p :: ps) (length (p :: ps) - 1) 0 []).
  - reflexivity.
  - cbn. lia.
Qed.

Lemma divisions_of_cons (prev cur : float) (rest : list float) :
  divisions_of (prev :: cur :: rest)
  = (if (0 <? prev)%float then [(cur, prev)] else [])
    ++ divisions_of (cur :: rest).
Proof. reflexivity. Qed.

(** The guard lets positive divisors through only. *)
Lemma divisions_of_divisor (prices : list float) :
  Forall (fun d : division =>
            positive_price d.2 /\ py_div d.1 d.2 = Ok (d.1 / d.2)%float)
    (divisions_of prices).
Proof.
  induction prices as [|prev rest IH]; [constructor|].
  destruct rest as [|cur rest]; [constructor|].
  rewrite divisions_of_cons. apply Forall_app. split; [|exact IH].
  destruct (0 <? prev)%float eqn:Hp; repeat constructor; cbn; [exact Hp|].
  now apply py_div_positive.
Qed.

(** On positive prices every transition is divided, and both sides of every
    division are positive. *)
Lemma divisions_of_positive (prices : list float) :
  Forall (fun p => positive_price p) prices ->
  length (divisions_of prices) = (length prices - 1)%nat
  /\ Forall (fun d : division => positive_price d.1 /\ positive_price d.2)
       (divisions_of prices).
Proof.
  induction prices as [|prev rest IH]; intros Hall; [split; constructor|].
  inversion Hall as [|? ? Hp Hrest]; subst.
  destruct rest as [|cur rest]; [split; constructor|].
  destruct (IH Hrest) as [Hlen Hdivs].
  rewrite divisions_of_cons, Hp. split.
  - cbn [app length]. rewrite Hlen. cbn. lia.
  - constructor; [|exact Hdivs]. split; [|exact Hp].
    now inversion Hrest.
Qed.

Ltac io_simpl := cbn -[Nat.ltb Nat.leb] in *.

Ltac io_unfold :=
  unfold mbind, mret, io_bind, io_ret, pyresult_bind, pyresult_ret, lift, fetch,
    io_try_except_Exception, try_except_Exception, try_except in *;
  io_simpl.

Lemma member_lookup (market_data : gmap string pyval) (r : string) :
  member market_data r = match market_data !! r with Some _ => true | None => false end.
Proof.
  unfold member. destruct (market_data !! r) as [v|] eqn:Hr.
  - apply bool_decide_eq_true. now exists v.
  - apply bool_decide_eq_false. intros [v Hv]. discriminate.
Qed.

Section CalculatorFacts.
Context `{Runtime}.
Variable provider : string -> Z -> string -> pyresult pyval.
Variable market_data : gmap string pyval.
Variable hours : Z.
Variable timeframe : string.

(** One iteration of the reference loop returns, appends what the token
    contributes, and calls the lookup exactly when the token is a key of
    [market_data]. *)
Lemma reference_step_run (vols : list float) (r : string) :
  reference_step provider market_data hours timeframe vols r
  = IO (Ok (vols ++ reference_contribution provider market_data hours timeframe r))
       (if member market_data r then [(r, hours, timeframe)] else []).
Proof.
  rewrite member_lookup. unfold reference_contribution, reference_step.
  destruct (market_data !! r) as [v|].
  2:{ io_unfold. now rewrite app_nil_r. }
  io_unfold.
  destruct (provider r hours timeframe) as [h|e]; io_simpl;
    [|now rewrite app_nil_r].
  destruct (extract_prices h) as [ps|e]; io_simpl; [|now rewrite app_nil_r].
  destruct (length ps <? 5)%nat; io_simpl; [now rewrite app_nil_r|].
  destruct (price_changes ps) as [cs|e]; io_simpl; [|now rewrite app_nil_r].
  destruct (2 <=? length cs)%nat; io_simpl; [|now rewrite app_nil_r].
  destruct (stdev cs) as [x|e]; io_simpl; [reflexivity|].
  destruct (handles _ e); io_simpl; now rewrite app_nil_r.
Qed.

Lemma market_volatilities_run (refs : list string) (acc : list float) :
  io_for_each (reference_step provider market_data hours timeframe) refs acc
  = IO (Ok (acc ++ concat (map (reference_contribution provider market_data
                                  hours timeframe) refs)))
       (map (fun r => (r, hours, timeframe))
            (List.filter (member market_data) refs)).
Proof.
  revert acc. induction refs as [|r refs IH]; intros acc.
  - cbn. unfold mret, io_ret. now rewrite app_nil_r.
  - cbn [io_for_each]. rewrite reference_step_run.
    unfold mbind, io_bind. cbn [outcome calls]. rewrite IH.
    cbn [outcome calls map concat List.filter].
    rewrite <- app_assoc. now destruct (member market_data r).
Qed.

End CalculatorFacts.

Section CalculatorRun.
Context `{Runtime}.
Variable provider : string -> Z -> string -> pyresult pyval.

Lemma market_volatilities_of_run (refs : list string)
    (market_data : gmap string pyval) (hours : Z) (timeframe : string) :
  market_volatilities_of provider refs market_data hours timeframe
  = IO (Ok (concat (map (reference_contribution provider market_data
                           hours timeframe) refs)))
       (map (fun r => (r, hours, timeframe))
            (List.filter (member market_data) refs)).
Proof. unfold market_volatilities_of. now rewrite market_volatilities_run. Qed.

(** The whole function in closed form: it always returns, with a no-result
    unless the subject has a volatility and the references a positive mean. *)
Lemma calculate_run (token : string) (refs : list string)
    (market_data : gmap string pyval) (timeframe : string) :
  let hours := timeframe_hours timeframe in
  calculate_relative_volatility_with provider token refs market_data timeframe
  = match subject_volatility provider token timeframe with
    | None => IO (Ok None) [(token, hours, timeframe)]
    | Some tv =>
        IO (Ok (match baseline (concat (map (reference_contribution provider
                                  market_data hours timeframe) refs)) with
                | Some m => Some (tv / m)%float
                | None => None
                end))
           ((token, hours, timeframe)
            :: map (fun r => (r, hours, timeframe))
                 (List.filter (member market_data) refs))
    end.
Proof.
  intros hours.
  unfold calculate_relative_volatility_with, relative_volatility_body,
    subject_volatility, baseline.
  fold hours. rewrite market_volatilities_of_run.
  set (vols := concat _). set (log := map _ _).
  io_unfold.
  destruct (provider token hours timeframe) as [h|e]; io_simpl; [|reflexivity].
  destruct (extract_prices h) as [ps|e]; io_simpl; [|reflexivity].
  destruct (length ps <? 5)%nat; io_simpl; [reflexivity|].
  destruct (price_changes ps) as [cs|e]; io_simpl; [|reflexivity].
  destruct (length cs <? 2)%nat; io_simpl; [reflexivity|].
  destruct (stdev cs) as [tv|e]; io_simpl.
  2:{ now destruct (handles _ e). }
  destruct vols as [|v vols]; io_simpl; [now rewrite !app_nil_r|].
  destruct (mean (v :: vols)) as [m|e]; io_simpl; [|now rewrite !app_nil_r].
  destruct (0 <? m)%float eqn:Hm; io_simpl; [|now rewrite !app_nil_r].
  unfold py_div. rewrite (positive_not_zero m Hm). io_simpl.
  now rewrite !app_nil_r.
Qed.

End CalculatorRun.

(** ** What a reference token contributes *)

Section ContributionFacts.
Context `{Runtime}.
Variable provider : string -> Z -> string -> pyresult pyval.
Variable market_data : gmap string pyval.
Variable hours : Z.
Variable timeframe : string.

Lemma contribution_non_member (r : string) :
  member market_data r = false ->
  reference_contribution provider market_data hours timeframe r = [].
Proof.
  rewrite member_lookup. unfold reference_contribution, reference_step.
  now destruct (market_data !! r).
Qed.

Lemma contribution_raise (r : string) (e : exn) :
  provider r hours timeframe = Raise e ->
  reference_contribution provider market_data hours timeframe r = [].
Proof.
  intros Hp. unfold reference_contribution, reference_step.
  destruct (market_data !! r); [|reflexivity].
  io_unfold. now rewrite Hp.
Qed.

Lemma contribution_short (r : string) (h : pyval) (ps : list float) :
  provider r hours timeframe = Ok h -> extract_prices h = Ok ps ->
  (length ps < 5)%nat ->
  reference_contribution provider market_data hours timeframe r = [].
Proof.
  intros Hp He Hlen. unfold reference_contribution, reference_step.
  destruct (market_data !! r); [|reflexivity].
  io_unfold. rewrite Hp. io_simpl. rewrite He. io_simpl.
  apply Nat.ltb_lt in Hlen. now rewrite Hlen.
Qed.

(** A member with enough prices contributes the deviation of its changes. *)
Lemma contribution_volatility (r : string) (h : pyval) (ps cs : list float)
    (v : float) :
  member market_data r = true ->
  provider r hours timeframe = Ok h -> extract_prices h = Ok ps ->
  (5 <= length ps)%nat -> price_changes ps = Ok cs ->
  (2 <= length cs)%nat -> stdev cs = Ok v ->
  reference_contribution provider market_data hours timeframe r = [v].
Proof.
  rewrite member_lookup. intros Hm Hp He Hlen Hc Hlen2 Hs.
  unfold reference_contribution, reference_step.
  destruct (market_data !! r); [|discriminate].
  io_unfold. rewrite Hp. io_simpl. rewrite He. io_simpl.
  assert (Hlt : (length ps <? 5)%nat = false) by (apply Nat.ltb_ge; lia).
  rewrite Hlt. io_simpl. rewrite Hc. io_simpl.
  assert (Hle : (2 <=? length cs)%nat = true) by (apply Nat.leb_le; lia).
  rewrite Hle. io_simpl. now rewrite Hs.
Qed.

Lemma contributions_filter (refs : list string) :
  concat (map (reference_contribution provider market_data hours timeframe)
            (List.filter (member market_data) refs))
  = concat (map (reference_contribution provider market_data hours timeframe) refs).
Proof.
  induction refs as [|r refs IH]; [reflexivity|]. cbn [List.filter].
  destruct (member market_data r) eqn:Hm; cbn [map concat].
  - now rewrite IH.
  - now rewrite (contribution_non_member r Hm), IH.
Qed.

Lemma contributions_nil (refs : list string) :
  (forall r, In r refs ->
     reference_contribution provider market_data hours timeframe r = []) ->
  concat (map (reference_contribution provider market_data hours timeframe) refs)
  = [].
Proof.
  induction refs as [|r refs IH]; intros Hall; [reflexivity|]. cbn [map concat].
  rewrite (Hall r) by now left. apply IH. intros r' Hr'. apply Hall. now right.
Qed.

End ContributionFacts.

Lemma filter_filter_same {A} (f : A -> bool) (l : list A) :
  List.filter f (List.filter f l) = List.filter f l.
Proof.
  induction l as [|x l IH]; [reflexivity|]. cbn.
  destruct (f x) eqn:Hx; cbn; now rewrite ?Hx, IH.
Qed.

(** Extracted prices are positive, so the loop yields one change per
    transition. *)
Lemma extracted_prices_positive `{Runtime} (history : pyval)
    (prices : list float) :
  extract_prices history = Ok prices ->
  Forall (fun p => positive_price p) prices
  /\ length (changes_of prices) = (length prices - 1)%nat.
Proof.
  intros He. destruct (extract_prices_total history) as (ps & Hps & Hpos).
  rewrite He in Hps. injection Hps as <-.
  split; [exact Hpos|now apply changes_of_length].
Qed.

(** * The claims *)

(** C8: the lookback window is 24 hours for ["1h"], 168 hours for ["24h"],
    720 hours for ["7d"] and 720 hours for every other timeframe; every call
    of the lookup that [calculate_relative_volatility] makes asks for that
    window. *)
Theorem lookback_window :
  timeframe_hours "1h" = 24
  /\ timeframe_hours "24h" = 168
  /\ timeframe_hours "7d" = 720
  /\ (forall tf : string, tf <> "1h" -> tf <> "24h" -> timeframe_hours tf = 720)
  /\ (forall (R : Runtime) provider token refs market_data tf c,
        In c (calls (calculate_relative_volatility_with provider token refs
                       market_data tf)) ->
        call_hours c = timeframe_hours tf).
Proof.
  repeat split.
  - intros tf H1 H24. unfold timeframe_hours.
    destruct (String.eqb_spec tf "1h"); [contradiction|].
    destruct (String.eqb_spec tf "24h"); [contradiction|]. reflexivity.
  - intros R provider token refs market_data tf c Hc.
    rewrite calculate_run in Hc.
    destruct (subject_volatility provider token tf); cbn [calls] in Hc.
    + destruct Hc as [<-|Hc]; [reflexivity|].
      apply in_map_iff in Hc. destruct Hc as (r & <- & _). reflexivity.
    + destruct Hc as [<-|[]]. reflexivity.
Qed.

Lemma lookback_window_witness :
  timeframe_hours "30d" = 720
  /\ Forall (fun c => call_hours c = 168)
       (calls (calculate_relative_volatility (same_rows example_series) "SOL"
                 ["BTC"; "ETH"] example_market "24h")).
Proof.
  destruct lookback_window as (_ & _ & _ & Hother & Hcalls). split.
  - apply Hother; discriminate.
  - apply List.Forall_forall. intros c Hc.
    apply (Hcalls direct_runtime _ _ _ _ _ c Hc).
Defined.

(** C4: when the subject token yields fewer than five valid prices the
    function returns the no-result, whatever the reference tokens hold: the
    reference data is not even fetched. *)
Theorem insufficient_subject_data `{Runtime}
    (provider : string -> Z -> string -> pyresult pyval) (token : string)
    (refs : list string) (market_data : gmap string pyval) (tf : string)
    (history : pyval) (prices : list float) :
  provider token (timeframe_hours tf) tf = Ok history ->
  extract_prices history = Ok prices ->
  (length prices < 5)%nat ->
  calculate_relative_volatility_with provider token refs market_data tf
  = IO (Ok None) [(token, timeframe_hours tf, tf)].
Proof.
  intros Hp He Hlen. rewrite calculate_run. unfold subject_volatility.
  rewrite Hp, He. apply Nat.ltb_lt in Hlen. now rewrite Hlen.
Qed.

Lemma insufficient_subject_data_witness :
  calculate_relative_volatility
    (subject_rows [100; 102; 98; 105]%float example_series)
    "SOL" ["BTC"; "ETH"] example_market "1h"
  = IO (Ok None) [("SOL", 24, "1h")].
Proof.
  apply (insufficient_subject_data
           (get_historical_price_data
              (subject_rows [100; 102; 98; 105]%float example_series))
           "SOL" ["BTC"; "ETH"] example_market "1h"
           (history_of [100; 102; 98; 105]%float) [100; 102; 98; 105]%float).
  - vm_compute. reflexivity.
  - vm_compute. reflexivity.
  - vm_compute. lia.
Defined.

(** C7: when the lookup returns an empty sequence (or the no-data signal) for
    every reference token, the function returns the no-result, also for a
    subject token with a valid series. *)
Theorem no_reference_data `{Runtime}
    (provider : string -> Z -> string -> pyresult pyval) (token : string)
    (refs : list string) (market_data : gmap string pyval) (tf : string) :
  (forall r, In r refs ->
     exists history, provider r (timeframe_hours tf) tf = Ok history
       /\ (history = PNone \/ history = PList [] \/ history = PTuple [])) ->
  outcome (calculate_relative_volatility_with provider token refs market_data tf)
  = Ok None.
Proof.
  intros Hempty. rewrite calculate_run.
  destruct (subject_volatility provider token tf); [|reflexivity].
  cbn [outcome]. rewrite contributions_nil; [reflexivity|].
  intros r Hr. destruct (Hempty r Hr) as (history & Hp & Hh).
  apply (contribution_short _ _ _ _ r history [] Hp).
  - destruct Hh as [->|[->| ->]]; reflexivity.
  - cbn. lia.
Qed.

Lemma no_reference_data_witness :
  subject_volatility
    (get_historical_price_data (subject_rows example_series [])) "SOL" "7d"
  <> None
  /\ outcome (calculate_relative_volatility (subject_rows example_series [])
               "SOL" ["BTC"; "ETH"] example_market "7d")
     = Ok None.
Proof.
  split; [vm_compute; discriminate|].
  apply (no_reference_data
           (get_historical_price_data (subject_rows example_series []))
           "SOL" ["BTC"; "ETH"] example_market "7d").
  intros r [<-|[<-|[]]]; exists PNone; split; try reflexivity; now left.
Defined.

(** C9: a reference token that is not a key of [market_data] adds nothing to
    the baseline: its iteration leaves [market_volatilities] unchanged without
    calling the lookup, the function behaves as if the token were not in the
    list, and no call of the lookup names it (unless it is the subject). *)
Theorem non_member_reference_ignored `{Runtime}
    (provider : string -> Z -> string -> pyresult pyval) (token : string)
    (refs : list string) (market_data : gmap string pyval) (tf : string) :
  calculate_relative_volatility_with provider token refs market_data tf
  = calculate_relative_volatility_with provider token
      (List.filter (member market_data) refs) market_data tf
  /\ (forall r, market_data !! r = None -> r <> token ->
        ~ In r (map call_token
                  (calls (calculate_relative_volatility_with provider token refs
                            market_data tf))))
  /\ (forall r vols, market_data !! r = None ->
        reference_step provider market_data (timeframe_hours tf) tf vols r
        = IO (Ok vols) []).
Proof.
  split; [|split].
  - rewrite !calculate_run, contributions_filter, filter_filter_same.
    reflexivity.
  - intros r Hr Hne Hin. rewrite calculate_run in Hin.
    assert (Hm : member market_data r = false)
      by (rewrite member_lookup; now rewrite Hr).
    destruct (subject_volatility provider token tf); cbn in Hin.
    + destruct Hin as [Heq|Hin]; [now apply Hne|].
      rewrite map_map in Hin. apply in_map_iff in Hin.
      destruct Hin as (r' & Heq & Hin). cbn in Heq. subst r'.
      apply filter_In in Hin. destruct Hin as [_ Hin]. congruence.
    + destruct Hin as [Heq|[]]. now apply Hne.
  - intros r vols Hr. unfold reference_step. now rewrite Hr.
Qed.

Lemma non_member_reference_ignored_witness :
  calculate_relative_volatility (same_rows example_series) "SOL"
    ["BTC"; "DOGE"; "ETH"] example_market "1h"
  = calculate_relative_volatility (same_rows example_series) "SOL"
      ["BTC"; "ETH"] example_market "1h"
  /\ ~ In "DOGE"
       (map call_token
          (calls (calculate_relative_volatility (same_rows example_series)
                    "SOL" ["BTC"; "DOGE"; "ETH"] example_market "1h"))).
Proof.
  destruct (non_member_reference_ignored
              (get_historical_price_data (same_rows example_series))
              "SOL" ["BTC"; "DOGE"; "ETH"] example_market "1h")
    as (Hsame & Hcalls & _).
  split.
  - exact Hsame.
  - apply Hcalls; [vm_compute; reflexivity|discriminate].
Defined.

(** C1, as the code has it: an exception raised by the lookup never reaches
    the caller.  The function returns for every lookup; when the lookup raises
    for the subject token the result is the no-result; when it raises for a
    reference token that token is skipped; and the script's own lookup turns
    every exception of the database layer into the no-data signal [None]. *)
Theorem lookup_exceptions_are_caught `{Runtime}
    (provider : string -> Z -> string -> pyresult pyval) (token : string)
    (refs : list string) (market_data : gmap string pyval) (tf : string) :
  (exists result,
     outcome (calculate_relative_volatility_with provider token refs
                market_data tf) = Ok result)
  /\ (forall e, provider token (timeframe_hours tf) tf = Raise e ->
        outcome (calculate_relative_volatility_with provider token refs
                   market_data tf) = Ok None)
  /\ (forall r vols e, provider r (timeframe_hours tf) tf = Raise e ->
        outcome (reference_step provider market_data (timeframe_hours tf) tf
                   vols r) = Ok vols)
  /\ (forall query t h tf',
        exists v, get_historical_price_data query t h tf' = Ok v
                  /\ (forall e, query t h = Raise e -> v = PNone)).
Proof.
  split; [|split; [|split]].
  - rewrite calculate_run.
    destruct (subject_volatility provider token tf); eexists; reflexivity.
  - intros e He. rewrite calculate_run. unfold subject_volatility.
    now rewrite He.
  - intros r vols e He. rewrite reference_step_run. cbn [outcome].
    now rewrite (contribution_raise _ _ _ _ r e He), app_nil_r.
  - intros query t h tf'. unfold get_historical_price_data.
    destruct (query t h) as [[|row rows]|e]; cbn; eexists;
      (split; [reflexivity|]); intros e' He'; try discriminate; reflexivity.
Qed.

Lemma lookup_exceptions_are_caught_witness :
  outcome (calculate_relative_volatility_with raising_provider "SOL"
             ["BTC"; "ETH"] example_market "1h") = Ok None
  /\ get_historical_price_data broken_database "SOL" 24 "1h" = Ok PNone.
Proof.
  destruct (lookup_exceptions_are_caught raising_provider "SOL" ["BTC"; "ETH"]
              example_market "1h") as (_ & Hsubject & _ & Hown).
  split.
  - apply (Hsubject (OtherError "sqlite3.OperationalError")). reflexivity.
  - destruct (Hown broken_database "SOL" 24 "1h") as (v & Hv & Hnone).
    rewrite Hv. f_equal.
    apply (Hnone (OtherError "sqlite3.OperationalError")). reflexivity.
Defined.

(** C1 fails as stated: a lookup that raises for the subject token makes the
    function return the no-result, not raise; so does a database that raises
    under the script's own lookup. *)
Lemma lookup_exception_does_not_propagate :
  raising_provider "SOL" (timeframe_hours "1h") "1h"
  = Raise (OtherError "sqlite3.OperationalError")
  /\ outcome (calculate_relative_volatility_with raising_provider "SOL"
                ["BTC"; "ETH"] example_market "1h") = Ok None
  /\ broken_database "SOL" (timeframe_hours "1h")
     = Raise (OtherError "sqlite3.OperationalError")
  /\ outcome (calculate_relative_volatility broken_database "SOL"
                ["BTC"; "ETH"] example_market "1h") = Ok None.
Proof. repeat split. Qed.

(** C6: when the mean of the reference volatilities is zero, the function
    returns the no-result; it neither divides by the mean nor raises. *)
Theorem zero_market_volatility `{Runtime}
    (provider : string -> Z -> string -> pyresult pyval) (token : string)
    (refs : list string) (market_data : gmap string pyval) (tf : string)
    (market_volatilities : list float) (market_avg_volatility : float) :
  outcome (market_volatilities_of provider refs market_data
             (timeframe_hours tf) tf) = Ok market_volatilities ->
  mean market_volatilities = Ok market_avg_volatility ->
  (market_avg_volatility =? 0)%float = true ->
  outcome (calculate_relative_volatility_with provider token refs market_data tf)
  = Ok None.
Proof.
  intros Hvols Hmean Hzero. rewrite market_volatilities_of_run in Hvols.
  cbn [outcome] in Hvols. injection Hvols as Hvols.
  rewrite calculate_run, Hvols.
  destruct (subject_volatility provider token tf); [|reflexivity].
  cbn [outcome]. unfold baseline.
  destruct market_volatilities; [reflexivity|].
  now rewrite Hmean, (zero_not_positive _ Hzero).
Qed.

Lemma zero_market_volatility_witness :
  subject_volatility
    (get_historical_price_data (subject_rows example_series constant_series))
    "SOL" "1h" <> None
  /\ outcome (calculate_relative_volatility
               (subject_rows example_series constant_series)
               "SOL" ["BTC"; "ETH"] example_market "1h") = Ok None.
Proof.
  split; [vm_compute; discriminate|].
  apply (zero_market_volatility
           (get_historical_price_data
              (subject_rows example_series constant_series))
           "SOL" ["BTC"; "ETH"] example_market "1h"
           [0; 0]%float 0%float).
  - vm_compute. reflexivity.
  - vm_compute. reflexivity.
  - vm_compute. reflexivity.
Defined.

(** C10: on an extracted price series every price is positive, so the loop
    divides by positive prices only and returns one change per transition,
    [len(prices) - 1] of them (none for the empty series); with at least five
    prices there are at least four changes, so the fewer-than-two-changes guard
    does not fire, and since no division raises, the handler of the loop is
    never entered. *)
Theorem extracted_series_changes `{Runtime} (history : pyval)
    (prices : list float) :
  extract_prices history = Ok prices ->
  Forall (fun p => positive_price p) prices
  /\ (exists changes,
        price_changes prices = Ok changes
        /\ length changes = (length prices - 1)%nat
        /\ ((5 <= length prices)%nat ->
            (4 <= length changes)%nat /\ (length changes <? 2)%nat = false))
  /\ (forall i, (1 <= i < length prices)%nat ->
        exists prev cur c,
          prices !! (i - 1)%nat = Some prev /\ prices !! i = Some cur
          /\ positive_price prev
          /\ pct_change cur prev = Ok c
          /\ forall changes, change_step prices changes i = Ok (changes ++ [c])).
Proof.
  intros He. destruct (extract_prices_total history) as (ps & Hps & Hpos).
  rewrite He in Hps. injection Hps as <-.
  split; [exact Hpos|split].
  - exists (changes_of prices). split; [apply price_changes_eq|].
    rewrite (changes_of_length prices Hpos). split; [reflexivity|].
    intros Hlen. split; [lia|]. apply Nat.ltb_ge. lia.
  - intros i [Hi1 Hi2].
    destruct (lookup_lt_is_Some_2 prices (i - 1)) as [prev Hprev]; [lia|].
    destruct (lookup_lt_is_Some_2 prices i) as [cur Hcur]; [lia|].
    assert (Hp : positive_price prev).
    { rewrite List.Forall_forall in Hpos. apply Hpos.
      apply list_elem_of_In. now apply list_elem_of_lookup_2 in Hprev. }
    exists prev, cur, ((cur / prev - 1) * 100)%float.
    repeat split; try assumption.
    + now apply pct_change_positive.
    + intros changes. now apply change_step_computed.
Qed.

Lemma extracted_series_changes_witness :
  exists changes,
    price_changes example_series = Ok changes /\ length changes = 7%nat.
Proof.
  destruct (extracted_series_changes (history_of example_series)
              example_series)
    as (_ & (changes & Hc & Hlen & _) & _).
  - vm_compute. reflexivity.
  - exists changes. split; [exact Hc|exact Hlen].
Defined.

(** C5: a zero or negative value at position [i] of a price series, whatever
    the shape of the entry that carries it, is not among the prices that the
    change loop receives: the prices are the positive ones before and after
    position [i]; every division that the loop then evaluates has a positive
    dividend and a positive divisor, returns, and has the value at [i] on
    neither side, so no change into or out of position [i] is computed and no
    division error is raised.  The guard of the loop does the same for every
    list of floats: an iteration whose prior price is zero or negative
    evaluates no division and appends nothing, and every division of the loop
    has a positive divisor.  The observed loop returns what the loop of
    [calculate_relative_volatility] returns. *)
Theorem nonpositive_price_skipped `{Runtime} (xs : list float)
    (entries : list pyval) (i : nat) (x : float) :
  Forall2 (fun x e => carries (PFloat x) e) xs entries ->
  xs !! i = Some x -> (x <=? 0)%float = true ->
  (exists prices changes divs,
     extract_prices (PList entries) = Ok prices
     /\ prices = List.filter (fun p => (0 <? p)%float) (take i xs)
                 ++ List.filter (fun p => (0 <? p)%float) (drop (S i) xs)
     /\ price_changes_observed prices = Observed (Ok changes) divs
     /\ price_changes prices = Ok changes
     /\ length changes = (length prices - 1)%nat
     /\ length divs = (length prices - 1)%nat
     /\ Forall (fun d : division =>
                  positive_price d.1 /\ positive_price d.2
                  /\ py_div d.1 d.2 = Ok (d.1 / d.2)%float) divs
     /\ (forall d : division, In d divs -> d.1 <> x /\ d.2 <> x))
  /\ (forall (prices changes : list float) (k : nat) (prev : float),
        prices !! (k - 1)%nat = Some prev -> (prev <=? 0)%float = true ->
        change_step_observed prices changes k = Observed (Ok changes) [])
  /\ (forall prices : list float,
        exists changes divs,
          price_changes_observed prices = Observed (Ok changes) divs
          /\ Forall (fun d : division =>
                       positive_price d.2
                       /\ py_div d.1 d.2 = Ok (d.1 / d.2)%float) divs)
  /\ (forall (prices changes : list float) (k : nat),
        returned (change_step_observed prices changes k)
        = change_step prices changes k).
Proof.
  intros Hshape Hi Hx.
  assert (Hnot : (0 <? x)%float = false) by now apply nonpositive_not_positive.
  split; [|split; [|split]].
  - set (pos := fun p => (0 <? p)%float).
    assert (Hprices : extract_prices (PList entries) = Ok (List.filter pos xs)).
    { rewrite extract_prices_list. f_equal. clear Hi.
      induction Hshape as [|y e ys es Hc _ IH]; [reflexivity|].
      cbn [map concat List.filter].
      rewrite (kept_price_carries (PFloat y) e eq_refl Hc), kept_price_float, IH.
      unfold pos. now destruct (0 <? y)%float. }
    assert (Hpos : Forall (fun p => positive_price p) (List.filter pos xs)).
    { apply List.Forall_forall. intros p Hp.
      now apply List.filter_In in Hp as [_ Hp]. }
    exists (List.filter pos xs), (changes_of (List.filter pos xs)),
      (divisions_of (List.filter pos xs)).
    split; [exact Hprices|]. split.
    { rewrite <- (take_drop_middle xs i x Hi) at 1.
      rewrite List.filter_app. cbn [List.filter]. unfold pos at 2.
      now rewrite Hnot. }
    split; [apply price_changes_observed_eq|].
    split; [apply price_changes_eq|].
    split; [now apply changes_of_length|].
    destruct (divisions_of_positive _ Hpos) as [Hlen Hall].
    split; [exact Hlen|]. split.
    + apply List.Forall_forall. intros d Hd.
      rewrite List.Forall_forall in Hall. destruct (Hall d Hd) as [H1 H2].
      repeat split; try assumption. now apply py_div_positive.
    + intros d Hd. rewrite List.Forall_forall in Hall.
      destruct (Hall d Hd) as [H1 H2].
      split; intros Heq; rewrite Heq in *; congruence.
  - intros prices changes k prev Hprev Hle.
    apply (change_step_observed_skipped _ _ _ prev Hprev).
    now apply nonpositive_not_positive.
  - intros prices. exists (changes_of prices), (divisions_of prices).
    split; [apply price_changes_observed_eq|apply divisions_of_divisor].
  - apply change_step_observed_returned.
Qed.

Lemma nonpositive_price_skipped_witness :
  exists changes divs,
    extract_prices
      (PList [PFloat 100; PDict [("price", PFloat 0)];
              PTuple [PFloat 50; PInt 1700000000]])
    = Ok [100; 50]%float
    /\ price_changes_observed [100; 50]%float = Observed (Ok changes) divs
    /\ length divs = 1%nat.
Proof.
  destruct (nonpositive_price_skipped (H := direct_runtime)
              [100; 0; 50]%float
              [PFloat 100; PDict [("price", PFloat 0)];
               PTuple [PFloat 50; PInt 1700000000]] 1 0%float)
    as ((prices & changes & divs & He & Hp & Ho & _ & _ & Hl & _) & _).
  - repeat constructor.
  - reflexivity.
  - reflexivity.
  - vm_compute in Hp. subst prices. exists changes, divs.
    split; [exact He|split; [exact Ho|exact Hl]].
Defined.



(** ** Identical and constant reference series *)

Section Parity.
Context `{Runtime}.
Variable provider : string -> Z -> string -> pyresult pyval.
Variable market_data : gmap string pyval.
Variable tf : string.

(** When every member contributes the same volatility, the list of market
    volatilities repeats it once per member. *)
Lemma contributions_replicate (refs : list string) (v : float) :
  (forall r, In r refs -> member market_data r = true ->
     reference_contribution provider market_data (timeframe_hours tf) tf r = [v]) ->
  concat (map (reference_contribution provider market_data
                 (timeframe_hours tf) tf) refs)
  = replicate (length (List.filter (member market_data) refs)) v.
Proof.
  induction refs as [|r refs IH]; intros Hall; [reflexivity|].
  cbn [map concat List.filter].
  rewrite IH by (intros r' Hr'; apply Hall; now right).
  destruct (member market_data r) eqn:Hm.
  - rewrite (Hall r) by (assumption || now left). reflexivity.
  - now rewrite (contribution_non_member _ _ _ _ r Hm).
Qed.

Lemma series_changes (history : pyval) (prices changes : list float) :
  extract_prices history = Ok prices -> (5 <= length prices)%nat ->
  price_changes prices = Ok changes ->
  (length changes <? 2)%nat = false /\ (2 <= length changes)%nat.
Proof.
  intros He Hlen Hc.
  destruct (extracted_prices_positive history prices He) as [Hpos Hcount].
  rewrite price_changes_eq in Hc. injection Hc as <-.
  rewrite Hcount. split; [apply Nat.ltb_ge|]; lia.
Qed.

Lemma parity_of_identical_series (token : string) (refs : list string)
    (history : pyval) (prices changes : list float) (v : float) :
  provider token (timeframe_hours tf) tf = Ok history ->
  extract_prices history = Ok prices ->
  (5 <= length prices)%nat ->
  (forall r, In r refs ->
     exists h, provider r (timeframe_hours tf) tf = Ok h
               /\ extract_prices h = Ok prices) ->
  price_changes prices = Ok changes ->
  stdev changes = Ok v ->
  positive_price v -> finite_above v ->
  (exists r, In r refs /\ member market_data r = true) ->
  mean (replicate (length (List.filter (member market_data) refs)) v) = Ok v ->
  outcome (calculate_relative_volatility_with provider token refs market_data tf)
  = Ok (Some 1%float).
Proof.
  intros Hp He Hlen Hrefs Hc Hs Hpos Hfin (r0 & Hr0 & Hm0) Hmean.
  destruct (series_changes history prices changes He Hlen Hc) as [Hlt Hle].
  rewrite calculate_run. unfold subject_volatility.
  rewrite Hp, He.
  assert (Hlt5 : (length prices <? 5)%nat = false) by (apply Nat.ltb_ge; lia).
  rewrite Hlt5, Hc, Hlt, Hs. cbn [outcome].
  rewrite (contributions_replicate refs v).
  2:{ intros r Hr Hm. destruct (Hrefs r Hr) as (h & Hph & Heh).
      now apply (contribution_volatility _ _ _ _ r h prices changes v). }
  unfold baseline.
  destruct (List.filter (member market_data) refs) as [|r1 rs] eqn:Hfilter.
  - assert (Hin : In r0 (List.filter (member market_data) refs))
      by (apply filter_In; now split).
    rewrite Hfilter in Hin. destruct Hin.
  - cbn [length replicate] in Hmean |- *. rewrite Hmean, Hpos.
    now rewrite (div_same v Hpos Hfin).
Qed.

Lemma constant_references_no_result (token : string) (refs : list string)
    (n : nat) (c : float) :
  (forall r, In r refs ->
     exists h, provider r (timeframe_hours tf) tf = Ok h
               /\ extract_prices h = Ok (replicate n c)) ->
  positive_price c -> finite_above c ->
  stdev (replicate (n - 1) 0%float) = Ok 0%float ->
  mean (replicate (length (List.filter (member market_data) refs)) 0%float)
  = Ok 0%float ->
  outcome (calculate_relative_volatility_with provider token refs market_data tf)
  = Ok None.
Proof.
  intros Hrefs Hpos Hfin Hs Hmean. rewrite calculate_run.
  destruct (subject_volatility provider token tf); [|reflexivity].
  cbn [outcome]. destruct (Nat.lt_ge_cases n 5) as [Hshort|Hlong].
  - rewrite contributions_nil; [reflexivity|].
    intros r Hr. destruct (Hrefs r Hr) as (h & Hph & Heh).
    apply (contribution_short _ _ _ _ r h (replicate n c) Hph Heh).
    now rewrite length_replicate.
  - rewrite (contributions_replicate refs 0%float).
    + unfold baseline.
      destruct (length (List.filter (member market_data) refs)); [reflexivity|].
      cbn [replicate] in Hmean |- *. now rewrite Hmean.
    + intros r Hr Hm. destruct (Hrefs r Hr) as (h & Hph & Heh).
      apply (contribution_volatility _ _ _ _ r h (replicate n c)
               (replicate (n - 1) 0%float) 0%float); try assumption.
      * now rewrite length_replicate.
      * now rewrite price_changes_eq, (changes_of_constant c n Hpos Hfin).
      * rewrite length_replicate. lia.
Qed.

End Parity.

(** C2, as the code has it: when the subject and every reference token have
    the same extracted price series of at least five prices, at least one
    reference token is a key of [market_data], and the volatility of the series
    is positive and finite, the result is exactly 1.0 (for a [statistics.mean]
    that maps copies of one value to that value); when instead every reference
    token has the same constant finite series, the result is the no-result (for
    a [statistics] that maps zeros to zero). *)
Theorem parity_case `{Runtime}
    (provider : string -> Z -> string -> pyresult pyval) (token : string)
    (refs : list string) (market_data : gmap string pyval) (tf : string) :
  (forall (history : pyval) (prices changes : list float) (v : float),
     provider token (timeframe_hours tf) tf = Ok history ->
     extract_prices history = Ok prices ->
     (5 <= length prices)%nat ->
     (forall r, In r refs ->
        exists h, provider r (timeframe_hours tf) tf = Ok h
                  /\ extract_prices h = Ok prices) ->
     price_changes prices = Ok changes ->
     stdev changes = Ok v ->
     positive_price v -> finite_above v ->
     (exists r, In r refs /\ member market_data r = true) ->
     mean (replicate (length (List.filter (member market_data) refs)) v) = Ok v ->
     outcome (calculate_relative_volatility_with provider token refs
                market_data tf) = Ok (Some 1%float))
  /\ (forall (n : nat) (c : float),
        (forall r, In r refs ->
           exists h, provider r (timeframe_hours tf) tf = Ok h
                     /\ extract_prices h = Ok (replicate n c)) ->
        positive_price c -> finite_above c ->
        stdev (replicate (n - 1) 0%float) = Ok 0%float ->
        mean (replicate (length (List.filter (member market_data) refs)) 0%float)
        = Ok 0%float ->
        outcome (calculate_relative_volatility_with provider token refs
                   market_data tf) = Ok None).
Proof.
  split.
  - intros history prices changes v. apply parity_of_identical_series.
  - intros n c. apply constant_references_no_result.
Qed.

Lemma parity_case_witness :
  outcome (calculate_relative_volatility (same_rows example_series) "SOL"
             ["BTC"; "ETH"] example_market "1h") = Ok (Some 1%float)
  /\ outcome (calculate_relative_volatility
                (subject_rows example_series constant_series) "SOL"
                ["BTC"; "ETH"] example_market "1h") = Ok None.
Proof.
  split.
  - destruct (parity_case (get_historical_price_data (same_rows example_series))
                "SOL" ["BTC"; "ETH"] example_market "1h") as [Hparity _].
    apply (Hparity (history_of example_series) example_series example_changes
             example_volatility).
    + vm_compute. reflexivity.
    + vm_compute. reflexivity.
    + vm_compute. lia.
    + intros r _. exists (history_of example_series).
      split; vm_compute; reflexivity.
    + vm_compute. reflexivity.
    + vm_compute. reflexivity.
    + vm_compute. reflexivity.
    + vm_compute. reflexivity.
    + exists "BTC". split; [now left|vm_compute; reflexivity].
    + vm_compute. reflexivity.
  - destruct (parity_case
                (get_historical_price_data
                   (subject_rows example_series constant_series))
                "SOL" ["BTC"; "ETH"] example_market "1h") as [_ Hconstant].
    apply (Hconstant 8%nat 100%float).
    + intros r [<-|[<-|[]]]; exists (history_of constant_series);
        split; vm_compute; reflexivity.
    + vm_compute. reflexivity.
    + vm_compute. reflexivity.
    + vm_compute. reflexivity.
    + vm_compute. reflexivity.
Defined.

(** C2 fails as stated.  The series [1, 2, 4, 8, 16] is valid and not
    constant, yet all its percentage changes are 100, so its volatility is
    zero: with that series for the subject and for every reference token the
    result is the no-result.  With the test series for every token but no
    reference token among the keys of [market_data], the result is the
    no-result too. *)
Lemma identical_series_without_parity :
  extract_prices (history_of doubling_series) = Ok doubling_series
  /\ price_changes doubling_series = Ok [100; 100; 100; 100]%float
  /\ stdev [100; 100; 100; 100]%float = Ok 0%float
  /\ outcome (calculate_relative_volatility (same_rows doubling_series) "SOL"
                ["BTC"; "ETH"] example_market "1h") = Ok None
  /\ outcome (calculate_relative_volatility (same_rows example_series) "SOL"
                ["BTC"; "ETH"] ∅ "1h") = Ok None.
Proof. repeat apply conj; vm_compute; reflexivity. Qed.

(** * Further properties of the scripts *)

(** ** [RealVolatilityTester.extract_prices] *)

Lemma real_extract_step_append (prices : list pyval) (entry : pyval) :
  RealVolatilityTester.extract_step prices entry
  = Ok (prices ++ stored_price entry).
Proof.
  unfold RealVolatilityTester.extract_step, stored_price.
  destruct entry; try (now rewrite app_nil_r).
  destruct (dict_get bindings "price"); [reflexivity|now rewrite app_nil_r].
Qed.

Lemma real_extract_loop (entries : list pyval) :
  for_each RealVolatilityTester.extract_step entries []
  = Ok (concat (map stored_price entries)).
Proof.
  now rewrite (for_each_append _ stored_price real_extract_step_append).
Qed.

Lemma stored_price_characters (s : string) :
  concat (map stored_price (characters s)) = [].
Proof. induction s as [|c s IH]; [reflexivity|exact IH]. Qed.

Lemma stored_price_keys (d : list (string * pyval)) :
  concat (map stored_price (map (fun kv => PStr (fst kv)) d)) = [].
Proof. induction d as [|kv d IH]; [reflexivity|exact IH]. Qed.

Lemma stored_price_records (rows : list pyval) :
  concat (map stored_price (map (fun price => PDict [("price", price)]) rows))
  = rows.
Proof. induction rows as [|r rows IH]; [reflexivity|]. cbn. now rewrite IH. Qed.

Lemma real_extract_prices_entries (historical_data : pyval)
    (entries : list pyval) :
  py_truthy historical_data = true ->
  py_iter historical_data = Ok entries ->
  RealVolatilityTester.extract_prices historical_data
  = Ok (if py_eq_str historical_data "Never" then []
        else concat (map stored_price entries)).
Proof.
  intros Ht Hi. unfold RealVolatilityTester.extract_prices.
  rewrite Ht. cbn [negb orb].
  destruct (py_eq_str historical_data "Never"); [reflexivity|].
  rewrite Hi. cbn -[for_each]. apply real_extract_loop.
Qed.

(** X1: unlike the [extract_prices] of [calculate_relative_volatility], the
    method of the real tester can raise: on a value that is true and not
    iterable (a non-zero number, [True], an arbitrary object) it raises
    [TypeError]; on every other value it returns, and what it returns are the
    stored [price] fields of the records among the entries, unconverted. *)
Theorem real_extract_prices_outcome (historical_data : pyval) :
  (py_truthy historical_data = true -> is_iterable historical_data = false ->
   RealVolatilityTester.extract_prices historical_data = Raise TypeError)
  /\ (py_truthy historical_data = false ->
      RealVolatilityTester.extract_prices historical_data = Ok [])
  /\ (forall entries, py_truthy historical_data = true ->
        py_iter historical_data = Ok entries ->
        RealVolatilityTester.extract_prices historical_data
        = Ok (if py_eq_str historical_data "Never" then []
              else concat (map stored_price entries))).
Proof.
  unfold RealVolatilityTester.extract_prices. repeat apply conj.
  - intros Ht Hi. rewrite Ht.
    destruct historical_data; try discriminate; reflexivity.
  - intros Ht. now rewrite Ht.
  - intros entries Ht Hi.
    apply (real_extract_prices_entries historical_data entries Ht Hi).
Qed.

Lemma real_extract_prices_outcome_witness :
  RealVolatilityTester.extract_prices (PInt 5) = Raise TypeError
  /\ RealVolatilityTester.extract_prices (PInt 0) = Ok []
  /\ RealVolatilityTester.extract_prices
       (PList [PDict [("price", PNone)]; PFloat 3;
               PDict [("price", PStr "n/a"); ("volume", PInt 1)];
               PDict [("cost", PFloat 2)]; PDict [("price", PFloat (-1))]])
     = Ok [PNone; PStr "n/a"; PFloat (-1)].
Proof.
  repeat apply conj.
  - destruct (real_extract_prices_outcome (PInt 5)) as (Hraise & _).
    apply Hraise; reflexivity.
  - destruct (real_extract_prices_outcome (PInt 0)) as (_ & Hfalse & _).
    apply Hfalse; reflexivity.
  - destruct (real_extract_prices_outcome
                (PList [PDict [("price", PNone)]; PFloat 3;
                        PDict [("price", PStr "n/a"); ("volume", PInt 1)];
                        PDict [("cost", PFloat 2)];
                        PDict [("price", PFloat (-1))]])) as (_ & _ & Hlist).
    apply (Hlist _ eq_refl eq_refl).
Defined.

(** X2: applied to what the lookup of [calculate_relative_volatility]
    returns, the method of the real tester gives back the fetched rows, and
    nothing when the database raised; the stricter [extract_prices] keeps at
    most as many prices. *)
Theorem real_extract_prices_of_lookup `{Runtime}
    (query : string -> Z -> pyresult (list pyval)) (token : string)
    (hours : Z) (tf : string) :
  exists history prices,
    get_historical_price_data query token hours tf = Ok history
    /\ RealVolatilityTester.extract_prices history
       = Ok (match query token hours with Ok rows => rows | Raise _ => [] end)
    /\ extract_prices history = Ok prices
    /\ (length prices
        <= length (match query token hours with Ok rows => rows | Raise _ => [] end))%nat.
Proof.
  unfold get_historical_price_data.
  destruct (query token hours) as [rows|e].
  2:{ exists PNone, []. repeat split; reflexivity || (cbn; lia). }
  destruct rows as [|row rows].
  { exists PNone, []. repeat split; reflexivity || (cbn; lia). }
  set (records := map (fun price => PDict [("price", price)]) (row :: rows)).
  exists (PList records), (concat (map kept_price records)).
  split; [reflexivity|]. split; [|split].
  - rewrite (real_extract_prices_entries (PList records) records eq_refl eq_refl).
    cbn [py_eq_str]. unfold records. now rewrite stored_price_records.
  - apply extract_prices_list.
  - unfold records. generalize (row :: rows). intros l.
    induction l as [|r l IH]; cbn [map concat length]; [lia|].
    rewrite length_app.
    assert (Hone : (length (kept_price (PDict [("price", r)])) <= 1)%nat).
    { unfold kept_price, extract_step. cbn.
      destruct (is_None r); [cbn; lia|].
      destruct (py_float r) as [x|e]; cbn.
      - destruct (0 <? x)%float; cbn; lia.
      - destruct (handles _ e); cbn; lia. }
    lia.
Qed.

(** X3: the mock lookup of [test_get_historical_price_data] signals an empty
    result by the string ["Never"] and an exception by [None]; on both, and on
    the records it builds from rows, the two [extract_prices] read the price
    column: the real tester's returns it as stored, the stricter one returns
    what it returns on the records of the other lookup. *)
Theorem mock_lookup_prices `{Runtime}
    (query : string -> Z -> pyresult (list history_row)) (token : string)
    (hours : Z) (tf : string) :
  exists history,
    mock_get_historical_price_data query token hours tf = Ok history
    /\ (query token hours = Ok [] -> history = PStr "Never")
    /\ (forall e, query token hours = Raise e -> history = PNone)
    /\ RealVolatilityTester.extract_prices history
       = Ok (match query token hours with
             | Ok rows => map row_price rows
             | Raise _ => []
             end)
    /\ (forall own, get_historical_price_data (price_column query) token hours tf
                    = Ok own ->
        extract_prices history = extract_prices own).
Proof.
  unfold mock_get_historical_price_data, get_historical_price_data, price_column.
  destruct (query token hours) as [rows|e].
  2:{ exists PNone. repeat split; try discriminate. now intros own [= <-]. }
  destruct rows as [|row rows].
  { exists (PStr "Never"). repeat split; try discriminate.
    now intros own [= <-]. }
  set (records := map history_entry (row :: rows)).
  exists (PList records). split; [reflexivity|].
  repeat split; try discriminate.
  - rewrite (real_extract_prices_entries (PList records) records eq_refl eq_refl).
    cbn [py_eq_str]. f_equal. unfold records. generalize (row :: rows).
    intros l. induction l as [|r l IH]; [reflexivity|]. cbn. now rewrite IH.
  - intros own Hown. cbn in Hown. injection Hown as <-.
    change (PList (PDict [("price", row_price row)]
                   :: map (fun price => PDict [("price", price)])
                        (map row_price rows)))
      with (PList (map (fun price => PDict [("price", price)])
                     (map row_price (row :: rows)))).
    rewrite !extract_prices_list. f_equal. unfold records.
    rewrite !map_map. reflexivity.
Qed.

(** ** Lookups that agree on the extracted prices *)

Section ProviderExtensionality.
Context `{Runtime}.
Variables provider1 provider2 : string -> Z -> string -> pyresult pyval.

Hypothesis same_prices : forall token hours tf,
  exists h1 h2, provider1 token hours tf = Ok h1
                /\ provider2 token hours tf = Ok h2
                /\ extract_prices h1 = extract_prices h2.

Lemma subject_volatility_ext (token tf : string) :
  subject_volatility provider1 token tf = subject_volatility provider2 token tf.
Proof.
  unfold subject_volatility.
  destruct (same_prices token (timeframe_hours tf) tf) as (h1 & h2 & -> & -> & ->).
  reflexivity.
Qed.

Lemma reference_contribution_ext (market_data : gmap string pyval) (hours : Z)
    (tf r : string) :
  reference_contribution provider1 market_data hours tf r
  = reference_contribution provider2 market_data hours tf r.
Proof.
  unfold reference_contribution, reference_step.
  destruct (market_data !! r); [|reflexivity].
  destruct (same_prices r hours tf) as (h1 & h2 & Hp1 & Hp2 & He).
  io_unfold. rewrite Hp1, Hp2. io_simpl. now rewrite He.
Qed.

(** The function only looks at the prices it extracts from the lookup. *)
Lemma calculate_ext (token : string) (refs : list string)
    (market_data : gmap string pyval) (tf : string) :
  calculate_relative_volatility_with provider1 token refs market_data tf
  = calculate_relative_volatility_with provider2 token refs market_data tf.
Proof.
  rewrite !calculate_run, subject_volatility_ext.
  replace (map (reference_contribution provider1 market_data
                  (timeframe_hours tf) tf) refs)
    with (map (reference_contribution provider2 market_data
                 (timeframe_hours tf) tf) refs); [reflexivity|].
  apply map_ext. intros r. symmetry. apply reference_contribution_ext.
Qed.

End ProviderExtensionality.

Lemma mock_lookup_agrees `{Runtime}
    (query : string -> Z -> pyresult (list history_row)) (token : string)
    (hours : Z) (tf : string) :
  exists h1 h2,
    mock_get_historical_price_data query token hours tf = Ok h1
    /\ get_historical_price_data (price_column query) token hours tf = Ok h2
    /\ extract_prices h1 = extract_prices h2.
Proof.
  unfold mock_get_historical_price_data, get_historical_price_data, price_column.
  destruct (query token hours) as [rows|e].
  2:{ exists PNone, PNone. repeat split. }
  destruct rows as [|row rows].
  { exists (PStr "Never"), PNone. repeat split. }
  exists (PList (map history_entry (row :: rows))),
    (PList (map (fun price => PDict [("price", price)])
              (map row_price (row :: rows)))).
  repeat split. rewrite !extract_prices_list, !map_map. reflexivity.
Qed.

(** X4: [calculate_relative_volatility] gives the same result, with the same
    calls, whether it reads the database through its own lookup or through the
    mock lookup of [test_get_historical_price_data] (on the rows both queries
    select): the extra fields, the ["Never"] signal and the [None] signal make
    no difference. *)
Theorem mock_lookup_same_result `{Runtime}
    (query : string -> Z -> pyresult (list history_row)) (token : string)
    (refs : list string) (market_data : gmap string pyval) (tf : string) :
  calculate_relative_volatility_with (mock_get_historical_price_data query)
    token refs market_data tf
  = calculate_relative_volatility (price_column query) token refs market_data tf.
Proof.
  unfold calculate_relative_volatility. apply calculate_ext.
  intros t h tf'. apply mock_lookup_agrees.
Qed.

(** ** [RealVolatilityTester.test_get_historical_price_data] *)

(** X5: the method never raises; it returns [None] or the very data the bot
    returned, and then that data is true and is not ["Never"]; when the bot
    has the method it is called once, for the window of the timeframe. *)
Theorem real_test_lookup_outcome
    (bot_method : option (string -> Z -> string -> pyresult pyval))
    (token tf : string) :
  (exists v,
     outcome (RealVolatilityTester.test_get_historical_price_data bot_method
                token tf) = Ok v
     /\ (v = PNone
         \/ exists method, bot_method = Some method
              /\ method token (timeframe_hours tf) tf = Ok v
              /\ py_truthy v = true /\ py_eq_str v "Never" = false))
  /\ calls (RealVolatilityTester.test_get_historical_price_data bot_method
              token tf)
     = match bot_method with
       | Some _ => [(token, timeframe_hours tf, tf)]
       | None => []
       end.
Proof.
  unfold RealVolatilityTester.test_get_historical_price_data.
  destruct bot_method as [method|]; io_unfold.
  2:{ split; [|reflexivity]. exists PNone. split; [reflexivity|now left]. }
  destruct (method token (timeframe_hours tf) tf) as [data|e] eqn:Hm; io_simpl.
  2:{ split; [|reflexivity]. exists PNone. split; [reflexivity|now left]. }
  destruct (py_eq_str data "Never") eqn:Hn; io_simpl.
  { split; [|reflexivity]. exists PNone. split; [reflexivity|now left]. }
  destruct (py_truthy data) eqn:Ht; io_simpl.
  2:{ split; [|reflexivity]. exists PNone. split; [reflexivity|now left]. }
  destruct (RealVolatilityTester.report_format data) as [[]|e]; io_simpl.
  - split; [|reflexivity]. exists data. split; [reflexivity|]. right.
    exists method. repeat split; assumption.
  - split; [|reflexivity]. exists PNone. split; [reflexivity|now left].
Qed.

(** X6: data whose report cannot be printed is lost.  When the data is a list
    whose first entry is a record with a [price] that the float format
    rejects ([None], a string, a huge [int]), the method returns [None]
    although the bot returned data; when the price can be formatted the data
    is returned. *)
Theorem real_test_lookup_format (method : string -> Z -> string -> pyresult pyval)
    (token tf : string) (d : list (string * pyval)) (rest : list pyval)
    (price : pyval) :
  method token (timeframe_hours tf) tf = Ok (PList (PDict d :: rest)) ->
  dict_get d "price" = Some price ->
  outcome (RealVolatilityTester.test_get_historical_price_data (Some method)
             token tf)
  = Ok (match py_format_float price with
        | Ok _ => PList (PDict d :: rest)
        | Raise _ => PNone
        end).
Proof.
  intros Hm Hd. unfold RealVolatilityTester.test_get_historical_price_data.
  io_unfold. rewrite Hm. io_simpl. rewrite Hd.
  destruct (py_format_float price) as [[]|e]; reflexivity.
Qed.

Lemma real_test_lookup_format_witness :
  outcome (RealVolatilityTester.test_get_historical_price_data
             (Some (fun _ _ _ =>
                      Ok (PList [PDict [("price", PNone)];
                                 PDict [("price", PFloat 100)]])))
             "AAVE" "1h")
  = Ok PNone.
Proof.
  apply (real_test_lookup_format
           (fun _ _ _ =>
              Ok (PList [PDict [("price", PNone)]; PDict [("price", PFloat 100)]]))
           "AAVE" "1h" [("price", PNone)] [PDict [("price", PFloat 100)]] PNone);
    reflexivity.
Defined.

(** ** The copy of [extract_prices] in [test_extract_prices_function] *)

Lemma for_each_map {A B S} (body : S -> B -> pyresult S) (g : A -> B)
    (xs : list A) (s : S) :
  for_each body (map g xs) s = for_each (fun s x => body s (g x)) xs s.
Proof.
  revert s. induction xs as [|x xs IH]; intros s; cbn; [reflexivity|].
  destruct (body s (g x)) as [s'|e]; cbn; [apply IH|reflexivity].
Qed.

Lemma for_each_ext {A S} (body1 body2 : S -> A -> pyresult S) (xs : list A)
    (s : S) :
  (forall s x, body1 s x = body2 s x) ->
  for_each body1 xs s = for_each body2 xs s.
Proof.
  intros Hext. revert s. induction xs as [|x xs IH]; intros s; cbn;
    [reflexivity|].
  rewrite Hext. destruct (body2 s x) as [s'|e]; cbn; [apply IH|reflexivity].
Qed.

Section ExtractPricesTestFacts.
Context `{Runtime}.
Variable price_attribute : nat -> option pyval.

Lemma test_extract_step_record (prices : list float) (entry : pyval) :
  ExtractPricesTest.extract_step price_attribute prices entry
  = extract_step prices (as_record price_attribute entry).
Proof.
  unfold ExtractPricesTest.extract_step, extract_step.
  destruct entry as [|b|z|f|s|items|items|d|id]; try reflexivity.
  cbn. destruct (price_attribute id) as [v|]; [|reflexivity]. cbn.
  destruct (is_None v) eqn:Hn.
  - now destruct v.
  - destruct (py_float v) as [x|e]; cbn; [reflexivity|].
    now destruct (handles [ValueError; TypeError; _] e),
                 (handles [ValueError; TypeError] e).
Qed.

Lemma iter_entries_records (history_data : pyval) :
  iter_entries (objects_as_records price_attribute history_data)
  = option_map (map (as_record price_attribute)) (iter_entries history_data).
Proof.
  destruct history_data; try reflexivity. cbn. f_equal.
  rewrite map_map. reflexivity.
Qed.

Lemma test_extract_prices_records (history_data : pyval) :
  ExtractPricesTest.extract_prices price_attribute history_data
  = extract_prices (objects_as_records price_attribute history_data).
Proof.
  unfold ExtractPricesTest.extract_prices, extract_prices.
  rewrite iter_entries_records.
  destruct (iter_entries history_data) as [es|]; [|reflexivity]. cbn.
  rewrite for_each_map. apply for_each_ext. apply test_extract_step_record.
Qed.

End ExtractPricesTestFacts.

(** X7: the copy of [extract_prices] that [test_extract_prices_function]
    tests treats an object with an attribute [price] as the record with that
    price, and is otherwise the function that [calculate_relative_volatility]
    uses: on data without such objects the two return the same prices. *)
Theorem test_copy_of_extract_prices `{Runtime}
    (price_attribute : nat -> option pyval) (history_data : pyval) :
  ExtractPricesTest.extract_prices price_attribute history_data
  = extract_prices (objects_as_records price_attribute history_data)
  /\ ((forall id, price_attribute id = None) ->
      ExtractPricesTest.extract_prices price_attribute history_data
      = extract_prices history_data).
Proof.
  split; [apply test_extract_prices_records|].
  intros Hnone. rewrite test_extract_prices_records. f_equal.
  assert (Hid : forall es, map (as_record price_attribute) es = es).
  { induction es as [|e es IH]; [reflexivity|]. cbn. rewrite IH. f_equal.
    destruct e; try reflexivity. cbn. now rewrite Hnone. }
  destruct history_data; try reflexivity; cbn; now rewrite Hid.
Qed.

Lemma test_copy_of_extract_prices_witness :
  ExtractPricesTest.extract_prices (fun id => if Nat.eqb id 1 then Some (PFloat 7) else None)
    (PList [PObj 1; PFloat 2; PObj 2; PDict [("price", PInt 3)]])
  = Ok [7; 2; 3]%float
  /\ ExtractPricesTest.extract_prices (fun _ => None)
       (PList [PDict [("price", PFloat 100)]; PList [PFloat 101.5; PInt 12346];
               PFloat 99.75])
     = extract_prices
         (PList [PDict [("price", PFloat 100)]; PList [PFloat 101.5; PInt 12346];
                 PFloat 99.75]).
Proof.
  split.
  - destruct (test_copy_of_extract_prices
                (fun id => if Nat.eqb id 1 then Some (PFloat 7) else None)
                (PList [PObj 1; PFloat 2; PObj 2; PDict [("price", PInt 3)]]))
      as [Hrec _].
    rewrite Hrec. vm_compute. reflexivity.
  - apply (test_copy_of_extract_prices (fun _ => None)). reflexivity.
Defined.

(** ** [get_real_market_data] *)

Lemma market_data_of_snoc (rows : list market_row) (row : market_row) :
  market_data_of (rows ++ [row])
  = <[mr_token row := market_entry row]> (market_data_of rows).
Proof. unfold market_data_of. now rewrite fold_left_app. Qed.

Lemma member_empty (t : string) : member (∅ : gmap string pyval) t = false.
Proof. rewrite member_lookup. now rewrite lookup_empty. Qed.

Lemma market_data_of_member (rows : list market_row) (t : string) :
  member (market_data_of rows) t = true <-> In t (map mr_token rows).
Proof.
  induction rows as [|row rows IH] using rev_ind.
  - cbn. rewrite member_empty. split; [discriminate|contradiction].
  - rewrite market_data_of_snoc, map_app, in_app_iff, <- IH.
    rewrite !member_lookup, lookup_insert. cbn.
    destruct (decide (mr_token row = t)) as [->|Hne].
    + split; [intros _; right; now left|reflexivity].
    + split; [now left|]. intros [Hm|[Heq|[]]]; [exact Hm|contradiction].
Qed.

Lemma market_data_of_last (rows later : list market_row) (row : market_row) :
  (forall r, In r later -> mr_token r <> mr_token row) ->
  market_data_of (rows ++ row :: later) !! mr_token row
  = Some (market_entry row).
Proof.
  induction later as [|x later IH] using rev_ind; intros Hlater.
  - rewrite market_data_of_snoc. apply lookup_insert_eq.
  - replace (rows ++ row :: later ++ [x]) with ((rows ++ row :: later) ++ [x])
      by (now rewrite <- app_assoc).
    rewrite market_data_of_snoc, lookup_insert_ne.
    + apply IH. intros r Hr. apply Hlater. apply in_app_iff. now left.
    + apply Hlater. apply in_app_iff. right. now left.
Qed.

(** X8: [get_real_market_data] never raises: a database that raises gives the
    empty mapping, and otherwise the keys of the mapping are exactly the tokens
    named by the rows. *)
Theorem real_market_data_keys (market_query : pyresult (list market_row)) :
  exists market_data,
    get_real_market_data market_query = Ok market_data
    /\ (forall e, market_query = Raise e -> market_data = ∅)
    /\ (forall rows, market_query = Ok rows ->
          forall t, member market_data t = true <-> In t (map mr_token rows)).
Proof.
  unfold get_real_market_data. destruct market_query as [rows|e]; cbn.
  - exists (market_data_of rows). repeat split; try discriminate.
    + intros Hm. injection H as <-. now apply market_data_of_member.
    + intros Hin. injection H as <-. now apply market_data_of_member.
  - exists ∅. repeat split; try discriminate.
Qed.

(** X9: when several rows name one token, the entry of the mapping comes from
    the last of them; in it the price is stored as fetched, while a volume,
    24h change or market cap that is false ([None], 0) is stored as 0. *)
Theorem real_market_data_last_row (rows later : list market_row)
    (row : market_row) :
  (forall r, In r later -> mr_token r <> mr_token row) ->
  exists market_data,
    get_real_market_data (Ok (rows ++ row :: later)) = Ok market_data
    /\ market_data !! mr_token row
       = Some (PDict [("current_price", mr_price row);
                      ("volume", or_zero (mr_volume row));
                      ("price_change_percentage_24h",
                       or_zero (mr_price_change_24h row));
                      ("market_cap", or_zero (mr_market_cap row))]).
Proof.
  intros Hlater. exists (market_data_of (rows ++ row :: later)).
  split; [reflexivity|]. now apply market_data_of_last.
Qed.

Lemma real_market_data_last_row_witness :
  exists market_data,
    get_real_market_data (Ok example_market_rows) = Ok market_data
    /\ market_data !! "BTC"
       = Some (PDict [("current_price", PFloat 101); ("volume", PInt 3);
                      ("price_change_percentage_24h", PFloat 1);
                      ("market_cap", PInt 6)])
    /\ market_data !! "ETH"
       = Some (PDict [("current_price", PFloat 10); ("volume", PInt 7);
                      ("price_change_percentage_24h", PInt 0);
                      ("market_cap", PInt 0)]).
Proof.
  destruct (real_market_data_last_row
              [ {| mr_token := "BTC"; mr_price := PFloat 100; mr_volume := PNone;
                   mr_price_change_24h := PFloat 0; mr_market_cap := PInt 5 |};
                {| mr_token := "ETH"; mr_price := PFloat 10; mr_volume := PInt 7;
                   mr_price_change_24h := PNone; mr_market_cap := PNone |} ]
              []
              {| mr_token := "BTC"; mr_price := PFloat 101; mr_volume := PInt 3;
                 mr_price_change_24h := PFloat 1; mr_market_cap := PInt 6 |})
    as (market_data & Hmd & Hbtc).
  - intros r [].
  - exists market_data. split; [exact Hmd|]. split; [exact Hbtc|].
    injection Hmd as <-. vm_compute. reflexivity.
Defined.

(** ** [test_complete_method] *)

Lemma calculate_returns `{Runtime}
    (provider : string -> Z -> string -> pyresult pyval) (token : string)
    (refs : list string) (market_data : gmap string pyval) (tf : string) :
  exists result,
    outcome (calculate_relative_volatility_with provider token refs
               market_data tf) = Ok result.
Proof.
  rewrite calculate_run.
  destruct (subject_volatility provider token tf); eexists; reflexivity.
Qed.

(** Without a reference token among the keys the result is the no-result. *)
Lemma calculate_without_members `{Runtime}
    (provider : string -> Z -> string -> pyresult pyval) (token : string)
    (refs : list string) (market_data : gmap string pyval) (tf : string) :
  (forall r, In r refs -> member market_data r = false) ->
  outcome (calculate_relative_volatility_with provider token refs
             market_data tf) = Ok None.
Proof.
  intros Hnone. rewrite calculate_run.
  destruct (subject_volatility provider token tf); [|reflexivity].
  cbn [outcome]. rewrite contributions_nil; [reflexivity|].
  intros r Hr. apply contribution_non_member. now apply Hnone.
Qed.

Lemma int_true_div_ninth (n : nat) :
  (n <= 9)%nat -> exists r, int_true_div (Z.of_nat n) 9 = Ok r.
Proof.
  intros Hn.
  do 10 (destruct n as [|n]; [eexists; vm_compute; reflexivity|]). lia.
Qed.

Section MethodTestFacts.
Context `{Runtime}.
Variable query : string -> Z -> pyresult (list pyval).
Variable market_data : gmap string pyval.

Lemma method_test_step_insert (token : string)
    (results : gmap string method_result) (tf : string) :
  method_test_step query market_data token results tf
  = <[result_key token tf := method_entry query market_data token tf]> results.
Proof.
  unfold method_test_step, method_entry.
  destruct (outcome _) as [[v|]|e]; reflexivity.
Qed.

Lemma method_test_results_inserts :
  method_test_results query market_data
  = <["SOL_7d" := method_entry query market_data "SOL" "7d"]>
    (<["SOL_24h" := method_entry query market_data "SOL" "24h"]>
    (<["SOL_1h" := method_entry query market_data "SOL" "1h"]>
    (<["ETH_7d" := method_entry query market_data "ETH" "7d"]>
    (<["ETH_24h" := method_entry query market_data "ETH" "24h"]>
    (<["ETH_1h" := method_entry query market_data "ETH" "1h"]>
    (<["BTC_7d" := method_entry query market_data "BTC" "7d"]>
    (<["BTC_24h" := method_entry query market_data "BTC" "24h"]>
    (<["BTC_1h" := method_entry query market_data "BTC" "1h"]> ∅)))))))).
Proof.
  unfold method_test_results, test_tokens, timeframes. cbn [fold_left].
  rewrite !method_test_step_insert. reflexivity.
Qed.

Lemma method_test_results_size : size (method_test_results query market_data) = 9%nat.
Proof.
  rewrite method_test_results_inserts.
  repeat (rewrite map_size_insert_None;
          [|rewrite ?lookup_insert_ne by discriminate; apply lookup_empty]).
  now rewrite map_size_empty.
Qed.

(** The entries of [results]: one per pair of a test token and a timeframe. *)
Lemma method_test_results_lookup (k : string) (r : method_result) :
  method_test_results query market_data !! k = Some r <->
  exists token tf, In token test_tokens /\ In tf timeframes
                   /\ k = result_key token tf
                   /\ r = method_entry query market_data token tf.
Proof.
  rewrite method_test_results_inserts. split.
  - intros Hk.
    repeat (rewrite lookup_insert in Hk;
            destruct (decide (_ = k)) as [<-|_];
            [injection Hk as <-; eexists _, _;
             split; [|split; [|split; [|reflexivity]]];
             [cbn; tauto|cbn; tauto|reflexivity]|]).
    rewrite lookup_empty in Hk. discriminate.
  - intros (token & tf & Htoken & Htf & -> & ->).
    cbn in Htoken, Htf.
    destruct Htoken as [<-|[<-|[<-|[]]]], Htf as [<-|[<-|[<-|[]]]];
      cbn [result_key String.append];
      rewrite ?lookup_insert_ne by discriminate; apply lookup_insert_eq.
Qed.

Lemma method_entry_not_error (token tf : string) (e : exn) :
  method_entry query market_data token tf <> ERROR e.
Proof.
  unfold method_entry, calculate_relative_volatility.
  destruct (calculate_returns (get_historical_price_data query) token
              reference_tokens market_data tf) as [[v|] ->]; discriminate.
Qed.

Lemma method_entry_success (token tf : string) :
  is_SUCCESS (method_entry query market_data token tf) = true <->
  exists v, outcome (calculate_relative_volatility query token reference_tokens
                       market_data tf) = Ok (Some v).
Proof.
  unfold method_entry.
  destruct (outcome _) as [[v|]|e]; cbn; split;
    try discriminate; try (intros [v' Hv']; discriminate).
  - intros _. now exists v.
  - reflexivity.
Qed.

(** Some entry is a success exactly when the count of successes is positive. *)
Lemma successes_positive :
  (0 < count_successes (method_test_results query market_data))%nat
  <-> exists token tf, In token test_tokens /\ In tf timeframes
        /\ is_SUCCESS (method_entry query market_data token tf) = true.
Proof.
  unfold count_successes.
  set (results := method_test_results query market_data). split.
  - intros Hpos.
    destruct (List.filter is_SUCCESS (map snd (map_to_list results)))
      as [|r rs] eqn:Hf; [cbn in Hpos; lia|].
    assert (Hin : In r (List.filter is_SUCCESS (map snd (map_to_list results))))
      by (rewrite Hf; now left).
    apply filter_In in Hin. destruct Hin as [Hin Hs].
    apply in_map_iff in Hin. destruct Hin as ([k r'] & Heq & Hin).
    cbn in Heq. subst r'.
    apply list_elem_of_In, elem_of_map_to_list in Hin.
    apply method_test_results_lookup in Hin.
    destruct Hin as (token & tf & Ht & Htf & _ & ->). now exists token, tf.
  - intros (token & tf & Ht & Htf & Hs).
    assert (Hin : In (method_entry query market_data token tf)
                    (List.filter is_SUCCESS (map snd (map_to_list results)))).
    { apply filter_In. split; [|exact Hs]. apply in_map_iff.
      exists (result_key token tf, method_entry query market_data token tf).
      split; [reflexivity|].
      apply list_elem_of_In, elem_of_map_to_list, method_test_results_lookup.
      now exists token, tf. }
    destruct (List.filter _ _); [destruct Hin|cbn; lia].
Qed.

End MethodTestFacts.

Lemma count_successes_bound (results : gmap string method_result) :
  (count_successes results <= size results)%nat.
Proof.
  unfold count_successes.
  rewrite <- length_map_to_list, <- (length_map snd).
  generalize (map snd (map_to_list results)). intros l.
  induction l as [|x l IH]; cbn; [lia|]. destruct (is_SUCCESS x); cbn; lia.
Qed.

(** The summary of nine results. *)
Lemma summarize_nine (results : gmap string method_result) :
  size results = 9%nat ->
  exists rate,
    int_true_div (Z.of_nat (count_successes results)) 9 = Ok rate
    /\ summarize results
       = Ok {| ms_status := if (0 <? count_successes results)%nat then "PASSED"
                            else "FAILED";
               ms_successful_tests := count_successes results;
               ms_total_tests := 9;
               ms_success_rate := PFloat rate;
               ms_results := results |}.
Proof.
  intros Hsize. pose proof (count_successes_bound results) as Hbound.
  rewrite Hsize in Hbound.
  destruct (int_true_div_ninth (count_successes results) Hbound)
    as [rate Hrate].
  exists rate. split; [exact Hrate|].
  unfold summarize. rewrite Hsize.
  change (0 <? 9)%nat with true. change (Z.of_nat 9) with 9%Z.
  cbv iota. rewrite Hrate. reflexivity.
Qed.

Lemma test_complete_method_run `{Runtime}
    (query : string -> Z -> pyresult (list pyval))
    (market_query : pyresult (list market_row)) :
  test_complete_method query market_query
  = summarize (method_test_results query (market_data_behind market_query)).
Proof.
  unfold test_complete_method, get_real_market_data, market_data_behind.
  now destruct market_query.
Qed.

(** X10: [test_complete_method] always completes and always records nine
    results, one per pair of a test token and a timeframe; none of them is an
    [ERROR], since the function under test never raises; the success rate is
    the number of successes over nine. *)
Theorem method_test_summary `{Runtime}
    (query : string -> Z -> pyresult (list pyval))
    (market_query : pyresult (list market_row)) :
  exists summary rate,
    test_complete_method query market_query = Ok summary
    /\ ms_total_tests summary = 9%nat
    /\ (ms_successful_tests summary <= 9)%nat
    /\ ms_success_rate summary = PFloat rate
    /\ int_true_div (Z.of_nat (ms_successful_tests summary)) 9 = Ok rate
    /\ (forall k r, ms_results summary !! k = Some r ->
          (exists token tf, In token test_tokens /\ In tf timeframes
                            /\ k = result_key token tf)
          /\ forall e, r <> ERROR e).
Proof.
  rewrite test_complete_method_run.
  pose proof (method_test_results_size query (market_data_behind market_query))
    as Hsize.
  destruct (summarize_nine _ Hsize) as (rate & Hrate & Hrun).
  eexists _, rate. split; [exact Hrun|].
  cbn [ms_total_tests ms_successful_tests ms_success_rate ms_results].
  split; [reflexivity|]. split.
  { rewrite <- Hsize. apply count_successes_bound. }
  split; [reflexivity|]. split; [exact Hrate|].
  intros k r Hk. apply method_test_results_lookup in Hk.
  destruct Hk as (token & tf & Ht & Htf & -> & ->). split.
  - now exists token, tf.
  - intros e. apply method_entry_not_error.
Qed.

(** X11: the status of [test_complete_method] is ["PASSED"] exactly when
    [calculate_relative_volatility] returns a value for at least one of the
    nine pairs, with the ten reference tokens of the tester and the market
    data read from the database. *)
Theorem method_test_passes `{Runtime}
    (query : string -> Z -> pyresult (list pyval))
    (market_query : pyresult (list market_row)) :
  (summary ← test_complete_method query market_query; Ok (ms_status summary))
  = Ok "PASSED"
  <-> exists token tf v,
        In token test_tokens /\ In tf timeframes
        /\ outcome (calculate_relative_volatility query token reference_tokens
                      (market_data_behind market_query) tf) = Ok (Some v).
Proof.
  rewrite test_complete_method_run.
  pose proof (method_test_results_size query (market_data_behind market_query))
    as Hsize.
  destruct (summarize_nine _ Hsize) as (rate & _ & ->).
  cbn [mbind pyresult_bind ms_status].
  pose proof (successes_positive query (market_data_behind market_query))
    as Hpos.
  destruct (0 <? _)%nat eqn:Hlt.
  - apply Nat.ltb_lt in Hlt. apply Hpos in Hlt.
    destruct Hlt as (token & tf & Ht & Htf & Hs).
    apply method_entry_success in Hs. destruct Hs as [v Hv].
    split; [intros _; now exists token, tf, v|reflexivity].
  - apply Nat.ltb_ge in Hlt. split; [discriminate|].
    intros (token & tf & v & Ht & Htf & Hv). exfalso.
    assert (Hs : (0 < count_successes
                        (method_test_results query
                           (market_data_behind market_query)))%nat).
    { apply Hpos. exists token, tf. repeat split; try assumption.
      apply method_entry_success. now exists v. }
    lia.
Qed.

(** X12: when no reference token of the tester is named by a market row (in
    particular when the market query returns no row or raises), every one of
    the nine results is [INSUFFICIENT_DATA] and the status is ["FAILED"],
    whatever price history the database holds. *)
Theorem method_test_fails_without_references `{Runtime}
    (query : string -> Z -> pyresult (list pyval))
    (market_query : pyresult (list market_row)) :
  (forall r, In r reference_tokens ->
     member (market_data_behind market_query) r = false) ->
  exists summary,
    test_complete_method query market_query = Ok summary
    /\ ms_status summary = "FAILED"
    /\ ms_successful_tests summary = 0%nat
    /\ (forall k r, ms_results summary !! k = Some r -> r = INSUFFICIENT_DATA).
Proof.
  intros Hnone.
  assert (Hentry : forall token tf,
            method_entry query (market_data_behind market_query) token tf
            = INSUFFICIENT_DATA).
  { intros token tf. unfold method_entry, calculate_relative_volatility.
    now rewrite (calculate_without_members _ token reference_tokens _ tf Hnone). }
  pose proof (successes_positive query (market_data_behind market_query))
    as Hpos.
  assert (Hzero : count_successes
                    (method_test_results query
                       (market_data_behind market_query)) = 0%nat).
  { apply Nat.le_0_r, Nat.nlt_ge. intros Hlt.
    apply Hpos in Hlt. destruct Hlt as (token & tf & _ & _ & Hs).
    rewrite Hentry in Hs. discriminate. }
  rewrite test_complete_method_run.
  pose proof (method_test_results_size query (market_data_behind market_query))
    as Hsize.
  destruct (summarize_nine _ Hsize) as (rate & _ & Hrun).
  rewrite Hzero in Hrun. eexists. split; [exact Hrun|].
  cbn [ms_status ms_successful_tests ms_results]. repeat split.
  intros k r Hk. apply method_test_results_lookup in Hk.
  destruct Hk as (token & tf & _ & _ & _ & ->). apply Hentry.
Qed.

Lemma method_test_fails_without_references_witness :
  exists summary,
    test_complete_method (same_rows example_series) (Raise (OtherError "sqlite3.OperationalError"))
    = Ok summary
    /\ ms_status summary = "FAILED".
Proof.
  destruct (method_test_fails_without_references (same_rows example_series)
              (Raise (OtherError "sqlite3.OperationalError")))
    as (summary & Hrun & Hstatus & _).
  - intros r _. reflexivity.
  - exists summary. split; [exact Hrun|exact Hstatus].
Defined.

(** ** [test_volatility_with_errors] *)

(** X13: [test_volatility_with_errors] never reports success: for every input
    the result is [None] and at least one error scenario is recorded.  For an
    input that passes the three checks of the arguments, the scenarios are the
    failed connection, if any, followed by ["insufficient_historical_data"]:
    the successful case at the end of the function is not reached. *)
Theorem error_test_never_succeeds `{Runtime} (connect : pyresult unit)
    (token : string) (refs : list string) (market_data : gmap string pyval)
    (tf : string) :
  fst (test_volatility_with_errors connect token refs market_data tf) = None
  /\ snd (test_volatility_with_errors connect token refs market_data tf) <> []
  /\ (existsb (String.eqb tf) ["1h"; "24h"; "7d"] = true ->
      refs <> [] -> member market_data token = true ->
      snd (test_volatility_with_errors connect token refs market_data tf)
      = match connect with
        | Ok _ => ["insufficient_historical_data"]
        | Raise _ => ["database_connection_failed";
                      "insufficient_historical_data"]
        end).
Proof.
  unfold test_volatility_with_errors.
  destruct (existsb (String.eqb tf) ["1h"; "24h"; "7d"]); cbn [negb].
  2:{ repeat split; discriminate. }
  destruct refs as [|r refs]; cbn [py_truthy map length Nat.eqb negb].
  { repeat split; try discriminate. intros _ Hne. now destruct Hne. }
  destruct (member market_data token); cbn [negb].
  2:{ repeat split; discriminate. }
  destruct connect as [[]|e]; cbn; repeat split; discriminate.
Qed.

Lemma error_test_never_succeeds_witness :
  test_volatility_with_errors (Ok tt) "BTC" ["ETH"; "SOL"] example_market "1h"
  = (None, ["insufficient_historical_data"]).
Proof.
  destruct (error_test_never_succeeds (Ok tt) "BTC" ["ETH"; "SOL"]
              example_market "1h") as (Hfst & _ & Hsnd).
  rewrite (surjective_pairing (test_volatility_with_errors _ _ _ _ _)).
  rewrite Hfst, Hsnd; [reflexivity|reflexivity|discriminate|reflexivity].
Defined.

(** ** The mock bot of [test_integration_flow] *)

Lemma factor_in_range_all :
  forallb factor_in_range (seq 0 100) = true.
Proof. vm_compute. reflexivity. Qed.

#[local] Set Warnings "-inexact-float".

Lemma random_factor_range (hash : string -> Z) (token : string) :
  exists factor,
    MockBot.random_factor hash token = Ok factor
    /\ (0.8 <=? factor)%float = true /\ (factor <=? 1.2)%float = true.
Proof.
  unfold MockBot.random_factor.
  pose proof (Z.mod_pos_bound (hash token) 100 ltac:(lia)) as Hbound.
  set (n := (hash token mod 100)%Z) in *.
  pose proof factor_in_range_all as Hall.
  rewrite forallb_forall in Hall.
  specialize (Hall (Z.to_nat n)).
  unfold factor_in_range in Hall. rewrite Z2Nat.id in Hall by lia.
  assert (Hin : In (Z.to_nat n) (seq 0 100)) by (apply in_seq; lia).
  specialize (Hall Hin).
  destruct (int_true_div n 250) as [q|e]; [|discriminate].
  cbn. eexists. split; [reflexivity|].
  apply andb_prop in Hall. exact Hall.
Qed.

#[local] Set Warnings "+inexact-float".

(** X14: the mock method stores what it returns under the key
    [token_timeframe] and changes no other entry of the cache; from then on
    every call whose token and timeframe give that key returns the stored
    value and leaves the cache alone, whatever its other arguments are, and
    also when the key comes from another token and timeframe. *)
Theorem mock_bot_cache (hash : string -> Z) (cache : gmap string float)
    (token : string) (refs : list string) (market_data : gmap string pyval)
    (tf : string) :
  exists v cache',
    MockBot._calculate_relative_volatility hash cache token refs market_data tf
    = Ok (v, cache')
    /\ cache' !! result_key token tf = Some v
    /\ (forall k, k <> result_key token tf -> cache' !! k = cache !! k)
    /\ (forall token' tf' refs' market_data',
          result_key token' tf' = result_key token tf ->
          MockBot._calculate_relative_volatility hash cache' token' refs'
            market_data' tf' = Ok (v, cache')).
Proof.
  unfold MockBot._calculate_relative_volatility.
  destruct (cache !! result_key token tf) as [cached|] eqn:Hc.
  - exists cached, cache. repeat split; try assumption.
    intros token' tf' refs' market_data' ->. now rewrite Hc.
  - destruct (random_factor_range hash token) as (factor & -> & _). cbn.
    eexists _, _. split; [reflexivity|]. split; [apply lookup_insert_eq|].
    split.
    + intros k Hk. now apply lookup_insert_ne.
    + intros token' tf' refs' market_data' ->. now rewrite lookup_insert_eq.
Qed.

Lemma mock_bot_cache_witness :
  exists v cache',
    MockBot._calculate_relative_volatility (fun s => Z.of_nat (String.length s))
      ∅ "A_1h" [] ∅ "24h" = Ok (v, cache')
    /\ MockBot._calculate_relative_volatility (fun s => Z.of_nat (String.length s))
         cache' "A" ["ETH"] example_market "1h_24h" = Ok (v, cache').
Proof.
  destruct (mock_bot_cache (fun s => Z.of_nat (String.length s)) ∅ "A_1h" []
              ∅ "24h") as (v & cache' & Hrun & _ & _ & Hhit).
  exists v, cache'. split; [exact Hrun|]. apply Hhit. reflexivity.
Defined.

#[local] Set Warnings "-inexact-float".

(** X15: on a key that is not cached the mock method returns the base
    volatility of the token times the multiplier of the timeframe times a
    factor that lies between 0.8 and 1.2, as its comment says, for every value
    of [hash], negative ones included. *)
Theorem mock_bot_fresh_value (hash : string -> Z) (cache : gmap string float)
    (token : string) (refs : list string) (market_data : gmap string pyval)
    (tf : string) :
  cache !! result_key token tf = None ->
  exists factor,
    MockBot._calculate_relative_volatility hash cache token refs market_data tf
    = Ok ((MockBot.base_volatility token * MockBot.timeframe_multiplier tf
           * factor)%float,
          <[result_key token tf :=
              (MockBot.base_volatility token * MockBot.timeframe_multiplier tf
               * factor)%float]> cache)
    /\ (0.8 <=? factor)%float = true /\ (factor <=? 1.2)%float = true.
Proof.
  intros Hc. unfold MockBot._calculate_relative_volatility. rewrite Hc.
  destruct (random_factor_range hash token) as (factor & -> & Hlo & Hhi).
  exists factor. repeat split; assumption.
Qed.

Lemma mock_bot_fresh_value_witness :
  exists factor,
    MockBot._calculate_relative_volatility (fun _ => (-7)%Z) ∅ "SOL" [] ∅ "7d"
    = Ok ((1.5 * 1.3 * factor)%float,
          {[ "SOL_7d" := (1.5 * 1.3 * factor)%float ]})
    /\ (0.8 <=? factor)%float = true /\ (factor <=? 1.2)%float = true.
Proof.
  destruct (mock_bot_fresh_value (fun _ => (-7)%Z) ∅ "SOL" [] ∅ "7d")
    as (factor & Hrun & Hlo & Hhi).
  - reflexivity.
  - exists factor. split; [exact Hrun|]. split; assumption.
Defined.

(** X16: the integration test does not depend on the volatility method of the
    bot: its result is [INTEGRATION_ERROR] when the market query raises,
    [NO_REAL_DATA] when it returns no row, and otherwise [SUCCESS] with the
    value of the mock for [BTC] and ["1h"]; so its status is ["PASSED"]
    exactly when the market query returns at least one row. *)
Theorem integration_flow_outcome (hash : string -> Z)
    (market_query : pyresult (list market_row)) :
  match market_query with
  | Raise e =>
      IntegrationFlow.test_integration_flow hash market_query
      = IntegrationFlow.INTEGRATION_ERROR e
  | Ok [] =>
      IntegrationFlow.test_integration_flow hash market_query
      = IntegrationFlow.NO_REAL_DATA
  | Ok (_ :: _) =>
      exists factor,
        MockBot.random_factor hash "BTC" = Ok factor
        /\ IntegrationFlow.test_integration_flow hash market_query
           = IntegrationFlow.SUCCESS
               [("relative_volatility", (1.0 * 0.8 * factor)%float)]
  end
  /\ (IntegrationFlow.status
        (IntegrationFlow.test_integration_flow hash market_query) = "PASSED"
      <-> exists row rows, market_query = Ok (row :: rows)).
Proof.
  unfold IntegrationFlow.test_integration_flow.
  destruct market_query as [[|row rows]|e]; cbn [mbind pyresult_bind].
  - split; [reflexivity|]. split; [discriminate|].
    intros (row & rows & Heq). discriminate.
  - destruct (random_factor_range hash "BTC") as (factor & Hf & _).
    assert (Hsize : Nat.eqb (size (market_data_of (row :: rows))) 0 = false).
    { apply Nat.eqb_neq. intros Hz. apply map_size_empty_inv in Hz.
      assert (Hm : member (market_data_of (row :: rows)) (mr_token row) = true)
        by (apply market_data_of_member; now left).
      rewrite Hz, member_empty in Hm. discriminate. }
    rewrite Hsize. unfold MockBot._calculate_relative_volatility.
    rewrite lookup_empty, Hf. cbn [mbind pyresult_bind].
    split.
    + exists factor. split; reflexivity.
    + split; [intros _; now exists row, rows|reflexivity].
  - split; [reflexivity|]. split; [discriminate|].
    intros (row & rows & Heq). discriminate.
Qed.

#[local] Set Warnings "+inexact-float".

(** ** From rows to the result *)

Lemma kept_price_record_length `{Runtime} (v : pyval) :
  (length (kept_price (PDict [("price", v)])) <= 1)%nat.
Proof.
  unfold kept_price, extract_step. cbn.
  destruct (is_None v); [cbn; lia|].
  destruct (py_float v) as [x|e]; cbn.
  - destruct (0 <? x)%float; cbn; lia.
  - destruct (handles _ e); cbn; lia.
Qed.

Lemma lookup_prices_bound `{Runtime}
    (query : string -> Z -> pyresult (list pyval)) (token : string)
    (hours : Z) (tf : string) :
  exists history prices,
    get_historical_price_data query token hours tf = Ok history
    /\ extract_prices history = Ok prices
    /\ (length prices
        <= match query token hours with
           | Ok rows => length rows
           | Raise _ => 0
           end)%nat.
Proof.
  unfold get_historical_price_data.
  destruct (query token hours) as [rows|e].
  2:{ exists PNone, []. repeat split; reflexivity || (cbn; lia). }
  destruct rows as [|row rows].
  { exists PNone, []. repeat split; reflexivity || (cbn; lia). }
  set (records := map (fun price => PDict [("price", price)]) (row :: rows)).
  exists (PList records), (concat (map kept_price records)).
  split; [reflexivity|]. split; [apply extract_prices_list|].
  unfold records. generalize (row :: rows). intros l.
  induction l as [|r l IH]; cbn [map concat length]; [lia|].
  rewrite length_app. pose proof (kept_price_record_length r). lia.
Qed.

(** X17: when the database returns fewer than five rows for the subject
    token, or raises, [calculate_relative_volatility] returns the no-result
    after that one query, whatever the rows hold and whatever is stored for
    the reference tokens. *)
Theorem too_few_rows `{Runtime}
    (query : string -> Z -> pyresult (list pyval)) (token : string)
    (refs : list string) (market_data : gmap string pyval) (tf : string) :
  match query token (timeframe_hours tf) with
  | Ok rows => (length rows < 5)%nat
  | Raise _ => True
  end ->
  calculate_relative_volatility query token refs market_data tf
  = IO (Ok None) [(token, timeframe_hours tf, tf)].
Proof.
  intros Hrows. unfold calculate_relative_volatility.
  destruct (lookup_prices_bound query token (timeframe_hours tf) tf)
    as (history & prices & Hp & He & Hlen).
  rewrite calculate_run. unfold subject_volatility. rewrite Hp, He.
  assert (Hlt : (length prices <? 5)%nat = true).
  { apply Nat.ltb_lt. destruct (query token (timeframe_hours tf)); lia. }
  now rewrite Hlt.
Qed.

Lemma too_few_rows_witness :
  calculate_relative_volatility
    (subject_rows [100; 102; 98; 105]%float example_series)
    "SOL" ["BTC"; "ETH"] example_market "7d"
  = IO (Ok None) [("SOL", 720, "7d")]
  /\ calculate_relative_volatility broken_database "SOL" ["BTC"; "ETH"]
       example_market "1h"
     = IO (Ok None) [("SOL", 24, "1h")].
Proof.
  split.
  - apply (too_few_rows (subject_rows [100; 102; 98; 105]%float example_series)
             "SOL" ["BTC"; "ETH"] example_market "7d").
    vm_compute. lia.
  - apply (too_few_rows broken_database "SOL" ["BTC"; "ETH"] example_market "1h").
    exact I.
Defined.

(** ** [RealVolatilityTester.test_calculate_relative_volatility] *)

(** X18: the method never raises.  It returns [None] or the value of the bot,
    and the value of the bot is returned only when it is a number; a float is
    always returned as it is, while a value that is no number (a string, a
    record) is reported as [None], like a missing result. *)
Theorem real_test_volatility_outcome
    (bot_method : option (string -> list string -> gmap string pyval ->
                          string -> pyresult pyval))
    (bot_reference_tokens : option (list string))
    (token : string) (market_data : gmap string pyval) (tf : string) :
  exists v,
    RealVolatilityTester.test_calculate_relative_volatility bot_method
      bot_reference_tokens token market_data tf = Ok v
    /\ (v <> PNone ->
        is_number v = true
        /\ exists method refs,
             bot_method = Some method /\ bot_reference_tokens = Some refs
             /\ method token refs market_data tf = Ok v)
    /\ (forall method refs x,
          bot_method = Some method -> bot_reference_tokens = Some refs ->
          method token refs market_data tf = Ok (PFloat x) -> v = PFloat x)
    /\ (forall method refs result,
          bot_method = Some method -> bot_reference_tokens = Some refs ->
          method token refs market_data tf = Ok result ->
          is_number result = false -> v = PNone).
Proof.
  unfold RealVolatilityTester.test_calculate_relative_volatility.
  destruct bot_method as [method|], bot_reference_tokens as [refs|]; cbn;
    try (exists PNone; repeat split; (discriminate || congruence)).
  destruct (method token refs market_data tf) as [result|e] eqn:Hm; cbn.
  2:{ exists PNone. repeat split; intros; congruence. }
  destruct result as [|b|z|f|s|items|items|d|id]; cbn;
    try (exists PNone; repeat split; intros; congruence).
  - exists (PBool b). repeat split; intros; try congruence.
    + exists method, refs. now repeat split.
    + assert (result = PBool b) by congruence. subst. discriminate.
  - destruct (float_of_int z) as [x|e]; cbn.
    + exists (PInt z). repeat split; intros; try congruence.
      * exists method, refs. now repeat split.
      * assert (result = PInt z) by congruence. subst. discriminate.
    + exists PNone. repeat split; intros; congruence.
  - exists (PFloat f). repeat split; intros; try congruence.
    + exists method, refs. now repeat split.
    + assert (result = PFloat f) by congruence. subst. discriminate.
Qed.

(** ** Values of a results mapping *)

Lemma existsb_map_values {A} (f : A -> bool) (m : gmap string A) :
  existsb f (map snd (map_to_list m)) = true
  <-> exists k r, m !! k = Some r /\ f r = true.
Proof.
  rewrite existsb_exists. split.
  - intros (r & Hin & Hf). apply in_map_iff in Hin.
    destruct Hin as ([k r'] & Heq & Hin). cbn in Heq. subst r'.
    exists k, r. split; [|exact Hf].
    now apply elem_of_map_to_list, list_elem_of_In.
  - intros (k & r & Hk & Hf). exists r. split; [|exact Hf].
    apply in_map_iff. exists (k, r). split; [reflexivity|].
    now apply list_elem_of_In, elem_of_map_to_list.
Qed.

Lemma forallb_map_values {A} (f : A -> bool) (m : gmap string A) :
  forallb f (map snd (map_to_list m)) = true
  <-> forall k r, m !! k = Some r -> f r = true.
Proof.
  rewrite forallb_forall. split.
  - intros Hall k r Hk. apply Hall. apply in_map_iff. exists (k, r).
    split; [reflexivity|]. now apply list_elem_of_In, elem_of_map_to_list.
  - intros Hall r Hin. apply in_map_iff in Hin.
    destruct Hin as ([k r'] & Heq & Hin). cbn in Heq. subst r'.
    apply (Hall k). now apply elem_of_map_to_list, list_elem_of_In.
Qed.

(** ** The scenario loop of [test_get_historical_price_data] *)

Section LookupScenarioFacts.
Variable query : string -> Z -> pyresult (list history_row).

Lemma scenario_outcome_cases (token : string) (hours : Z) (tf : string) :
  LookupScenarios.scenario_outcome query (token, hours, tf)
  = match query token hours with
    | Raise _ => LookupScenarios.ERROR
    | Ok [] => LookupScenarios.NO_DATA
    | Ok (row :: rows) =>
        LookupScenarios.SUCCESS (length (row :: rows))
          (firstn 2 (map history_entry (row :: rows)))
    end.
Proof.
  unfold LookupScenarios.scenario_outcome, mock_get_historical_price_data.
  destruct (query token hours) as [[|row rows]|e]; cbn; try reflexivity.
  now rewrite length_map.
Qed.

Lemma scenario_results_lookup (k : string)
    (r : LookupScenarios.scenario_result) :
  LookupScenarios.scenario_results query !! k = Some r <->
  exists token hours tf,
    In (token, hours, tf) LookupScenarios.test_scenarios
    /\ k = result_key token tf
    /\ r = LookupScenarios.scenario_outcome query (token, hours, tf).
Proof.
  unfold LookupScenarios.scenario_results, LookupScenarios.test_scenarios.
  cbn [fold_left fst snd]. split.
  - intros Hk.
    repeat (rewrite lookup_insert in Hk;
            destruct (decide (_ = k)) as [<-|_];
            [injection Hk as <-; eexists _, _, _;
             split; [|split; reflexivity]; cbn; tauto|]).
    rewrite lookup_empty in Hk. discriminate.
  - intros (token & hours & tf & Hin & -> & ->). cbn in Hin.
    destruct Hin as [[= <- <- <-]|[[= <- <- <-]|[[= <- <- <-]|[[= <- <- <-]|[]]]]];
      cbn [result_key String.append];
      rewrite ?lookup_insert_ne by discriminate; apply lookup_insert_eq.
Qed.

End LookupScenarioFacts.

(** X19: in the scenario loop of [test_get_historical_price_data] no scenario
    ends as [EXCEPTION]; the test is ["PASSED"] exactly when the database
    returns at least one row for one of the four scenarios; and when the
    database raises on every query each scenario is an [ERROR] while the test
    is stored as ["NO_DATA"]. *)
Theorem lookup_scenarios_status
    (query : string -> Z -> pyresult (list history_row)) :
  (forall k r e, LookupScenarios.scenario_results query !! k = Some r ->
     r <> LookupScenarios.EXCEPTION e)
  /\ (LookupScenarios.status query = "PASSED"
      <-> exists token hours tf row rows,
            In (token, hours, tf) LookupScenarios.test_scenarios
            /\ query token hours = Ok (row :: rows))
  /\ ((forall token hours, exists e, query token hours = Raise e) ->
      LookupScenarios.status query = "NO_DATA"
      /\ forall k r, LookupScenarios.scenario_results query !! k = Some r ->
           r = LookupScenarios.ERROR).
Proof.
  assert (Hpassed : LookupScenarios.status query = "PASSED"
      <-> exists token hours tf row rows,
            In (token, hours, tf) LookupScenarios.test_scenarios
            /\ query token hours = Ok (row :: rows)).
  { unfold LookupScenarios.status.
    destruct (existsb _ _) eqn:Hex.
    - apply existsb_map_values in Hex. destruct Hex as (k & r & Hk & Hs).
      apply scenario_results_lookup in Hk.
      destruct Hk as (token & hours & tf & Hin & _ & ->).
      rewrite scenario_outcome_cases in Hs.
      split; [intros _|reflexivity].
      destruct (query token hours) as [[|row rows]|e] eqn:Hq; try discriminate.
      now exists token, hours, tf, row, rows.
    - split; [discriminate|].
      intros (token & hours & tf & row & rows & Hin & Hq). exfalso.
      assert (Hex' : existsb LookupScenarios.is_SUCCESS
                       (map snd (map_to_list
                          (LookupScenarios.scenario_results query))) = true).
      { apply existsb_map_values.
        exists (result_key token tf),
          (LookupScenarios.scenario_outcome query (token, hours, tf)).
        split.
        - apply scenario_results_lookup. exists token, hours, tf.
          split; [exact Hin|split; reflexivity].
        - now rewrite scenario_outcome_cases, Hq. }
      congruence. }
  split; [|split; [exact Hpassed|]].
  - intros k r e Hk. apply scenario_results_lookup in Hk.
    destruct Hk as (token & hours & tf & _ & _ & ->).
    rewrite scenario_outcome_cases.
    destruct (query token hours) as [[|row rows]|e']; discriminate.
  - intros Hraise. split.
    + unfold LookupScenarios.status in *.
      destruct (existsb _ _); [|reflexivity].
      destruct Hpassed as [Hp _].
      destruct (Hp eq_refl) as (token & hours & tf & row & rows & _ & Hq).
      destruct (Hraise token hours) as [e He]. congruence.
    + intros k r Hk. apply scenario_results_lookup in Hk.
      destruct Hk as (token & hours & tf & _ & _ & ->).
      rewrite scenario_outcome_cases.
      destruct (Hraise token hours) as [e ->]. reflexivity.
Qed.

Lemma lookup_scenarios_status_witness :
  LookupScenarios.status
    (fun _ _ => Raise (OtherError "sqlite3.OperationalError")) = "NO_DATA"
  /\ LookupScenarios.status
       (fun token _ => if String.eqb token "SOL" then Ok example_history_rows
                       else Ok []) = "PASSED".
Proof.
  split.
  - destruct (lookup_scenarios_status
                (fun _ _ => Raise (OtherError "sqlite3.OperationalError")))
      as (_ & _ & Hbroken).
    apply Hbroken. intros token hours. eexists. reflexivity.
  - destruct (lookup_scenarios_status
                (fun token _ => if String.eqb token "SOL"
                                then Ok example_history_rows else Ok []))
      as (_ & Hpassed & _).
    apply Hpassed.
    eexists "SOL", 720%Z, "7d", _, _. split; [cbn; tauto|reflexivity].
Defined.

(** ** [test_database_schema] *)

Lemma missing_of_nil (required_columns columns : list string) :
  DatabaseSchema.missing_of required_columns columns = []
  <-> forall c, In c required_columns -> In c columns.
Proof.
  unfold DatabaseSchema.missing_of.
  induction required_columns as [|r rs IH]; cbn.
  - split; [intros _ c []|reflexivity].
  - destruct (existsb (String.eqb r) columns) eqn:Hex; cbn.
    + apply existsb_exists in Hex. destruct Hex as (c' & Hin & Heq).
      apply String.eqb_eq in Heq. subst c'. rewrite IH. split.
      * intros Hall c [<-|Hc]; [exact Hin|now apply Hall].
      * intros Hall c Hc. apply Hall. now right.
    + split; [discriminate|]. intros Hall. exfalso.
      assert (Hin : In r columns) by (apply Hall; now left).
      assert (Hex' : existsb (String.eqb r) columns = true).
      { apply existsb_exists. exists r. split; [exact Hin|apply String.eqb_refl]. }
      congruence.
Qed.

Lemma schema_step_report (table_info : string -> pyresult (list string))
    (schema_results : gmap string DatabaseSchema.table_report)
    (table_name : string) (required_columns : list string) :
  DatabaseSchema.schema_step table_info schema_results
    (table_name, required_columns)
  = report ← schema_report table_info table_name required_columns;
    Ok (<[table_name := report]> schema_results).
Proof.
  unfold DatabaseSchema.schema_step, schema_report, try_except.
  destruct (table_info table_name) as [columns|e]; cbn.
  - now destruct (DatabaseSchema.missing_of required_columns columns).
  - now destruct (handles _ e).
Qed.

Lemma schema_report_ok (table_info : string -> pyresult (list string))
    (table_name : string) (required_columns : list string) :
  (exists report, schema_report table_info table_name required_columns
                  = Ok report /\ DatabaseSchema.is_OK report = true)
  <-> exists columns, table_info table_name = Ok columns
        /\ forall c, In c required_columns -> In c columns.
Proof.
  unfold schema_report. destruct (table_info table_name) as [columns|e].
  - pose proof (missing_of_nil required_columns columns) as Hnil.
    destruct (DatabaseSchema.missing_of required_columns columns) as [|m ms].
    + split.
      * intros _. exists columns. split; [reflexivity|now apply Hnil].
      * intros _. eexists. split; reflexivity.
    + split.
      * intros (report & [= <-] & Hok). discriminate.
      * intros (cols & [= <-] & Hall). apply Hnil in Hall. discriminate.
  - split.
    + intros (report & Hr & Hok). destruct (handles _ e); [|discriminate].
      injection Hr as <-. discriminate.
    + intros (cols & Heq & _). discriminate.
Qed.

Lemma three_reports (r1 r2 r3 : DatabaseSchema.table_report) :
  forallb DatabaseSchema.is_OK
    (map snd (map_to_list
       (<["technical_indicators" := r3]>
          (<["market_data" := r2]>
             (<["price_history" := r1]> (∅ : gmap string _))))))
  = DatabaseSchema.is_OK r1 && DatabaseSchema.is_OK r2 && DatabaseSchema.is_OK r3.
Proof.
  apply eq_true_iff_eq. rewrite forallb_map_values, !andb_true_iff. split.
  - intros Hall. repeat split.
    + apply (Hall "price_history").
      rewrite !lookup_insert_ne by discriminate. apply lookup_insert_eq.
    + apply (Hall "market_data").
      rewrite lookup_insert_ne by discriminate. apply lookup_insert_eq.
    + apply (Hall "technical_indicators"). apply lookup_insert_eq.
  - intros [[H1 H2] H3] k r Hk.
    repeat (rewrite lookup_insert in Hk;
            destruct (decide (_ = k)) as [_|_]; [now injection Hk as <-|]).
    rewrite lookup_empty in Hk. discriminate.
Qed.

(** X20: [test_database_schema] stores ["PASSED"] exactly when the database
    opens and, for each of the three required tables, the table information
    is read and lists every required column; a table whose information cannot
    be read, or which lacks a column, never lets the test pass. *)
Theorem schema_test_passes (connect : pyresult unit)
    (table_info : string -> pyresult (list string)) :
  fst (DatabaseSchema.test_database_schema connect table_info) = "PASSED"
  <-> (exists u, connect = Ok u)
      /\ forall table_name required_columns,
           In (table_name, required_columns) DatabaseSchema.required_tables ->
           exists columns, table_info table_name = Ok columns
             /\ forall c, In c required_columns -> In c columns.
Proof.
  unfold DatabaseSchema.test_database_schema, DatabaseSchema.required_tables.
  destruct connect as [u|e]; cbn [mbind pyresult_bind for_each].
  2:{ split; [discriminate|]. intros [[u Hu] _]. discriminate. }
  rewrite schema_step_report.
  pose proof (schema_report_ok table_info "price_history"
                ["id"; "token"; "timestamp"; "price"; "volume"; "market_cap"])
    as H1.
  pose proof (schema_report_ok table_info "market_data"
                ["id"; "timestamp"; "chain"; "price"; "volume"]) as H2.
  pose proof (schema_report_ok table_info "technical_indicators"
                ["id"; "token"; "timestamp"]) as H3.
  assert (Hall : forall P : string -> list string -> Prop,
            (forall t req,
               In (t, req)
                 [("price_history",
                   ["id"; "token"; "timestamp"; "price"; "volume"; "market_cap"]);
                  ("market_data", ["id"; "timestamp"; "chain"; "price"; "volume"]);
                  ("technical_indicators", ["id"; "token"; "timestamp"])] ->
               P t req)
            <-> P "price_history"
                  ["id"; "token"; "timestamp"; "price"; "volume"; "market_cap"]
                /\ P "market_data" ["id"; "timestamp"; "chain"; "price"; "volume"]
                /\ P "technical_indicators" ["id"; "token"; "timestamp"]).
  { intros P. split.
    - intros Hp. repeat split; apply Hp; cbn; tauto.
    - intros (Hp1 & Hp2 & Hp3) t req [[= <- <-]|[[= <- <-]|[[= <- <-]|[]]]];
        assumption. }
  rewrite Hall. clear Hall.
  destruct (schema_report table_info "price_history" _) as [r1|e1];
    cbn [mbind pyresult_bind].
  2:{ split; [discriminate|]. intros [_ (Hp1 & _)].
      apply H1 in Hp1. destruct Hp1 as (r & Hr & _). discriminate. }
  rewrite schema_step_report.
  destruct (schema_report table_info "market_data" _) as [r2|e2];
    cbn [mbind pyresult_bind].
  2:{ split; [discriminate|]. intros [_ (_ & Hp2 & _)].
      apply H2 in Hp2. destruct Hp2 as (r & Hr & _). discriminate. }
  rewrite schema_step_report.
  destruct (schema_report table_info "technical_indicators" _) as [r3|e3];
    cbn [mbind pyresult_bind fst].
  2:{ split; [discriminate|]. intros [_ (_ & _ & Hp3)].
      apply H3 in Hp3. destruct Hp3 as (r & Hr & _). discriminate. }
  rewrite three_reports.
  destruct (DatabaseSchema.is_OK r1) eqn:Hr1,
           (DatabaseSchema.is_OK r2) eqn:Hr2,
           (DatabaseSchema.is_OK r3) eqn:Hr3; cbn [andb].
  1:{ split; [intros _|reflexivity]. split; [now exists u|].
      repeat split; [apply H1|apply H2|apply H3]; eexists; split;
        reflexivity || assumption. }
  all: split; [discriminate|]; intros [_ (Hp1 & Hp2 & Hp3)];
    apply H1 in Hp1; apply H2 in Hp2; apply H3 in Hp3;
    destruct Hp1 as (r1' & [= <-] & Hk1), Hp2 as (r2' & [= <-] & Hk2),
             Hp3 as (r3' & [= <-] & Hk3); congruence.
Qed.
